(** * limacharlie.Spout: the streaming reader, its queue and its drop counter

    A shallow embedding of [src/limacharlie/Spout.py].  The class [Spout]
    becomes a record, its methods become functions on that record, the
    per-line [try]/[except] becomes an error-returning body plus a handler,
    and the background greenlet running [_handleConnection] becomes a
    transition system driven by what the network and the consumer do. *)

From Stdlib Require Import ZArith Ascii String Floats.SpecFloat.
From stdpp Require Import gmap strings list fin_maps.

Local Open Scope string_scope.
Local Open Scope Z_scope.
Local Open Scope list_scope.
Local Set Warnings "-register-all".

(** ** Python values and exceptions *)

Module Py.

(** The exceptions that the modelled code can raise. *)
Inductive exn : Type :=
  | LcApiException (msg : string)
  | ValueError
  | TypeError
  | KeyError (key : string)
  | IndexError
  | OverflowError
  | Full
  | RequestException.

(** Result of a Python expression that may raise. *)
Inductive res (A : Type) : Type :=
  | Ok (a : A)
  | Raise (e : exn).
Arguments Ok {A} a.
Arguments Raise {A} e.

#[global] Instance res_ret : MRet res := fun A a => Ok a.
#[global] Instance res_bind : MBind res := fun A B k r =>
  match r with
  | Ok a => k a
  | Raise e => Raise e
  end.

(** What [json.loads] returns: the native values of the six JSON kinds.
    A float is the binary value it denotes; an object is a dict. *)
Inductive json : Type :=
  | JNull
  | JBool (b : bool)
  | JInt (z : Z)
  | JFloat (f : spec_float)
  | JStr (s : string)
  | JArr (l : list json)
  | JObj (d : gmap string json).

(** [s == v] for a [str] on the left: only an equal string compares equal. *)
Definition str_eq (s : string) (v : json) : bool :=
  match v with
  | JStr t => bool_decide (s = t)
  | _ => false
  end.

(** [needle in hay] for two strings: the substring test. *)
Fixpoint substring_in (needle hay : string) : bool :=
  String.prefix needle hay ||
  match hay with
  | EmptyString => false
  | String _ rest => substring_in needle rest
  end.

(** [key in v].  A dict tests its keys, a list its elements, a string its
    substrings; the other values are not containers and raise. *)
Definition contains (key : string) (v : json) : res bool :=
  match v with
  | JObj d => Ok (bool_decide (is_Some (d !! key)))
  | JArr l => Ok (existsb (str_eq key) l)
  | JStr s => Ok (substring_in key s)
  | JNull | JBool _ | JInt _ | JFloat _ => Raise TypeError
  end.

(** [v[key]] with a [str] subscript. *)
Definition getitem (v : json) (key : string) : res json :=
  match v with
  | JObj d =>
      match d !! key with
      | Some x => Ok x
      | None => Raise (KeyError key)
      end
  | _ => Raise TypeError
  end.

(** [int(f)] for a float: truncation toward zero. *)
Definition int_of_float (f : spec_float) : res Z :=
  match f with
  | S754_zero _ => Ok 0
  | S754_infinity _ => Raise OverflowError
  | S754_nan => Raise ValueError
  | S754_finite sign m e =>
      let mag := if 0 <=? e then Z.pos m * 2 ^ e else Z.pos m / 2 ^ (- e) in
      Ok (if sign then - mag else mag)
  end.

(** The two library routines whose text grammar is not part of this
    repository: [json.loads] on a line, and [int] on a string.  [None] means
    the call raises ([ValueError] in both cases). *)
Class Runtime : Type := {
  json_loads : string -> option json;
  int_of_str : string -> option Z
}.

(** [int(v)] on a decoded value. *)
Definition int `{Runtime} (v : json) : res Z :=
  match v with
  | JInt z => Ok z
  | JBool b => Ok (if b then 1 else 0)
  | JFloat f => int_of_float f
  | JStr s =>
      match int_of_str s with
      | Some z => Ok z
      | None => Raise ValueError
      end
  | JNull | JArr _ | JObj _ => Raise TypeError
  end.

(** [json.loads(line)]. *)
Definition loads `{Runtime} (line : string) : res json :=
  match json_loads line with
  | Some v => Ok v
  | None => Raise ValueError
  end.

End Py.

(** ** gevent.queue.Queue, as far as the reader and the consumer use it *)

Module Queue.

Record t (A : Type) : Type := mk {
  maxsize : option Z;      (* [None]: no bound *)
  items : list A           (* oldest first *)
}.
Arguments mk {A} maxsize items.
Arguments maxsize {A} _.
Arguments items {A} _.

(** [Queue(maxsize = n)]: a non-positive [n] gives a queue without bound. *)
Definition new {A} (n : Z) : t A :=
  {| maxsize := if n <=? 0 then None else Some n; items := [] |}.

Definition qsize {A} (q : t A) : Z := Z.of_nat (length (items q)).

Definition full {A} (q : t A) : bool :=
  match maxsize q with
  | None => false
  | Some m => m <=? qsize q
  end.

(** [q.put_nowait(x)]: returns at once, with [Full] when there is no room. *)
Definition put_nowait {A} (x : A) (q : t A) : Py.res (t A) :=
  if full q then Py.Raise Py.Full
  else Py.Ok {| maxsize := maxsize q; items := items q ++ [x] |}.

(** [q.get()] when an item is there; [None] stands for a consumer that
    has to wait. *)
Definition get {A} (q : t A) : option (A * t A) :=
  match items q with
  | [] => None
  | x :: rest => Some (x, {| maxsize := maxsize q; items := rest |})
  end.

(** [n] successive [get]s. *)
Fixpoint drain {A} (n : nat) (q : t A) : option (list A * t A) :=
  match n with
  | O => Some ([], q)
  | S k =>
      match get q with
      | None => None
      | Some (x, q') =>
          match drain k q' with
          | None => None
          | Some (xs, q'') => Some (x :: xs, q'')
          end
      end
  end.

End Queue.

(** ** The Spout object *)

Definition _CLOUD_KEEP_ALIVES : Z := 60.
Definition _TIMEOUT_SEC : Z := (_CLOUD_KEEP_ALIVES * 2) + 1.

(** The part of [limacharlie.Manager] that [Spout] reads. *)
Record Manager : Type := {
  man_oid : string;
  man_secret_api_key : string
}.

(** A [requests] response: the connection it holds, and the headers of the
    redirect responses that led to it ([history]). *)
Record Response : Type := {
  conn : nat;
  history : list (gmap string string)
}.

(** What the queue holds: decoded values, or raw lines when parsing is off. *)
Inductive message : Type :=
  | Parsed (v : Py.json)
  | Raw (line : string).

(** What the object does to the outside world, in the order it does it. *)
Inductive effect : Type :=
  | Post (url : string) (data : gmap string string)
         (stream allow_redirects : bool) (timeout : Z)
  | Get (url : string) (stream allow_redirects : bool) (timeout : Z)
  | Close (c : nat)
  | Spawn
  | Debug (msg : string).

Record Spout : Type := mkSpout {
  _man : Manager;
  _oid : string;
  _apiKey : string;
  _data_type : string;
  _cat : option string;
  _tag : option string;
  _invId : option string;
  _is_parse : bool;
  _max_buffer : Z;
  _dropped : Z;
  _isStop : bool;
  queue : Queue.t message;
  _hConn : option Response;
  _finalSpoutUrl : string
}.

Definition set_dropped (n : Z) (self : Spout) : Spout :=
  mkSpout (_man self) (_oid self) (_apiKey self) (_data_type self) (_cat self)
    (_tag self) (_invId self) (_is_parse self) (_max_buffer self) n
    (_isStop self) (queue self) (_hConn self) (_finalSpoutUrl self).

Definition set_isStop (b : bool) (self : Spout) : Spout :=
  mkSpout (_man self) (_oid self) (_apiKey self) (_data_type self) (_cat self)
    (_tag self) (_invId self) (_is_parse self) (_max_buffer self)
    (_dropped self) b (queue self) (_hConn self) (_finalSpoutUrl self).

Definition set_queue (q : Queue.t message) (self : Spout) : Spout :=
  mkSpout (_man self) (_oid self) (_apiKey self) (_data_type self) (_cat self)
    (_tag self) (_invId self) (_is_parse self) (_max_buffer self)
    (_dropped self) (_isStop self) q (_hConn self) (_finalSpoutUrl self).

Definition set_hConn (r : Response) (self : Spout) : Spout :=
  mkSpout (_man self) (_oid self) (_apiKey self) (_data_type self) (_cat self)
    (_tag self) (_invId self) (_is_parse self) (_max_buffer self)
    (_dropped self) (_isStop self) (queue self) (Some r) (_finalSpoutUrl self).

(** [spoutParams]: the two fixed fields, then each filter that is given. *)
Definition spoutParams (apiKey data_type : string)
    (inv_id tag cat : option string) : gmap string string :=
  let p0 : gmap string string := <["type" := data_type]> {["api_key" := apiKey]} in
  let p1 := match inv_id with Some v => <["inv_id" := v]> p0 | None => p0 end in
  let p2 := match tag with Some v => <["tag" := v]> p1 | None => p1 end in
  match cat with Some v => <["cat" := v]> p2 | None => p2 end.

(** [Spout.__init__].  [post] is the server's answer to the registration
    request.  The result is what the constructor did to the outside world
    and either the new object or the exception that leaves the constructor. *)
Definition __init__ (post : string -> gmap string string -> Py.res Response)
    (man : Manager) (data_type : string) (is_parse : bool) (max_buffer : Z)
    (inv_id tag cat : option string) : list effect * Py.res Spout :=
  if negb (bool_decide (data_type ∈ ["event"; "detect"; "audit"])) then
    ([], Py.Raise (Py.LcApiException ("Invalid data type: " +:+ data_type)))
  else
    let q := Queue.new max_buffer in
    let params := spoutParams (man_secret_api_key man) data_type inv_id tag cat in
    let url := "https://output.limacharlie.io/output/" +:+ man_oid man in
    let request := Post url params true true _TIMEOUT_SEC in
    match post url params with
    | Py.Raise e => ([request], Py.Raise e)
    | Py.Ok hConn =>
        match history hConn with
        | [] => ([request], Py.Raise Py.IndexError)
        | first :: _ =>
            match first !! "Location" with
            | None => ([request], Py.Raise (Py.KeyError "Location"))
            | Some location =>
                ([request; Spawn],
                 Py.Ok (mkSpout man (man_oid man) (man_secret_api_key man)
                          data_type cat tag inv_id is_parse max_buffer 0 false
                          q (Some hConn) location))
            end
        end
    end.

(** [Spout.shutdown], up to the point where it starts waiting for the
    reader: the flag, then the close. *)
Definition shutdown (self : Spout) : list effect * Spout :=
  let self' := set_isStop true self in
  match _hConn self' with
  | Some r => ([Close (conn r)], self')
  | None => ([], self')
  end.

Definition getDropped (self : Spout) : Z := _dropped self.

Definition resetDroppedCounter (self : Spout) : Spout := set_dropped 0 self.

(** ** One line of the stream *)

Section Reader.
Context `{Py.Runtime}.

(** The statements under the inner [try]. *)
Definition line_body (self : Spout) (line : string) : Py.res Spout :=
  if _is_parse self then
    v ← Py.loads line;
    is_trace ← Py.contains "__trace" v;
    if (is_trace : bool) then
      t ← Py.getitem v "__trace";
      if Py.str_eq "dropped" t then
        field ← Py.getitem v "n";
        n ← Py.int field;
        mret (set_dropped (_dropped self + n) self)
      else mret self
    else
      q ← Queue.put_nowait (Parsed v) (queue self);
      mret (set_queue q self)
  else
    q ← Queue.put_nowait (Raw line) (queue self);
    mret (set_queue q self).

(** The inner [try] with its bare [except]. *)
Definition handle_line (self : Spout) (line : string) : Spout :=
  match line_body self line with
  | Py.Ok self' => self'
  | Py.Raise _ => set_dropped (_dropped self + 1) self
  end.

(** The [for] loop over the lines that one connection yields. *)
Definition for_lines (self : Spout) (lines : list string) : Spout :=
  fold_left handle_line lines self.

End Reader.

(** ** The background reader and its surroundings

    [_handleConnection] runs in a greenlet of its own.  It gives up control
    only where it waits for the network: for the next line of the stream, and
    for the answer to the reconnecting [requests.get].  Between two such
    points it runs alone, so the reader is a machine with one state per
    waiting point, moved by what arrives there; the consumer's calls are
    further moves of the same machine. *)

Inductive pc : Type :=
  | Spawned                        (* spawned, not yet run *)
  | Streaming                      (* inside [iter_lines], waiting for data *)
  | Connecting                     (* inside [requests.get] *)
  | Exited (e : option Py.exn).    (* left the loop, or died with [e] *)

Record world : Type := mkWorld {
  sp : Spout;
  reader : pc;
  log : list effect;               (* everything done so far, oldest first *)
  consumed : list message          (* what the consumer took, oldest first *)
}.

Inductive input : Type :=
  | Sched                          (* the greenlet gets to run *)
  | Line (l : string)              (* [iter_lines] yields a line *)
  | StreamEnd                      (* [iter_lines] is exhausted *)
  | StreamError (msg : string)     (* [iter_lines] raises an [Exception] *)
  | GetReturns (r : Py.res Response)
  | CallShutdown
  | CallGet
  | CallReset.

Definition with_sp (s : Spout) (w : world) : world :=
  mkWorld s (reader w) (log w) (consumed w).

Definition with_reader (p : pc) (w : world) : world :=
  mkWorld (sp w) p (log w) (consumed w).

Definition emit (es : list effect) (w : world) : world :=
  mkWorld (sp w) (reader w) (log w ++ es) (consumed w).

(** The world right after a successful constructor call. *)
Definition boot (es : list effect) (s : Spout) : world :=
  mkWorld s Spawned es [].

Section Machine.
Context `{Py.Runtime}.

(** The [while] test, and the first statement of the body when it passes. *)
Definition loop_head (w : world) : world :=
  if negb (_isStop (sp w)) then
    with_reader Streaming (emit [Debug "Stream started."] w)
  else with_reader (Exited None) w.

(** From the end of the [for] loop to the next waiting point: the outer
    [except] when the stream raised, the [finally], the reconnection. *)
Definition stream_over (err : option string) (w : world) : world :=
  let caught :=
    match err with
    | Some e =>
        if negb (_isStop (sp w)) then [Debug ("Stream closed: " +:+ e)]
        else [Debug "Stream closed."]
    | None => []
    end in
  let w1 := emit (caught ++ [Debug "Stream closed."]) w in
  if negb (_isStop (sp w1)) then
    with_reader Connecting
      (emit [Get (_finalSpoutUrl (sp w1)) true false _TIMEOUT_SEC] w1)
  else loop_head w1.

(** [Spout._handleConnection], from one waiting point to the next.
    [None]: the move is not one the reader can make in this state. *)
Definition _handleConnection (i : input) (w : world) : option world :=
  match i, reader w with
  | Sched, Spawned => Some (loop_head w)
  | Line l, Streaming => Some (with_sp (handle_line (sp w) l) w)
  | StreamEnd, Streaming => Some (stream_over None w)
  | StreamError msg, Streaming => Some (stream_over (Some msg) w)
  | GetReturns (Py.Ok r), Connecting =>
      Some (loop_head (with_sp (set_hConn r (sp w)) w))
  | GetReturns (Py.Raise e), Connecting =>
      Some (with_reader (Exited (Some e)) w)
  | _, _ => None
  end.

(** The calls of the owning application: [shutdown()], [queue.get()] when
    a message is there, [resetDroppedCounter()]. *)
Definition consumer (i : input) (w : world) : option world :=
  match i with
  | CallShutdown =>
      let '(es, s) := shutdown (sp w) in Some (emit es (with_sp s w))
  | CallGet =>
      match Queue.get (queue (sp w)) with
      | Some (x, q) =>
          Some (mkWorld (set_queue q (sp w)) (reader w) (log w)
                  (consumed w ++ [x]))
      | None => None
      end
  | CallReset => Some (with_sp (resetDroppedCounter (sp w)) w)
  | _ => None
  end.

(** One move of the whole. *)
Definition step (i : input) (w : world) : option world :=
  match i with
  | CallShutdown | CallGet | CallReset => consumer i w
  | _ => _handleConnection i w
  end.

Fixpoint run (ins : list input) (w : world) : option world :=
  match ins with
  | [] => Some w
  | i :: rest =>
      match step i w with
      | Some w' => run rest w'
      | None => None
      end
  end.

End Machine.

(** The network requests in a log. *)
Definition is_request (e : effect) : bool :=
  match e with
  | Post _ _ _ _ _ | Get _ _ _ _ => true
  | _ => false
  end.

Definition requests (es : list effect) : list effect := filter is_request es.

(** The moves that belong to the reader (the rest are the consumer's). *)
Definition reader_input (i : input) : bool :=
  match i with
  | CallShutdown | CallGet | CallReset => false
  | _ => true
  end.

(** ** Vocabulary for the statements *)

Section Vocabulary.
Context `{Py.Runtime}.

(** The message that [line] puts before [put_nowait], if processing the
    line gets that far. *)
Definition deliverable (self : Spout) (line : string) : option message :=
  if _is_parse self then
    match Py.loads line with
    | Py.Ok v =>
        match Py.contains "__trace" v with
        | Py.Ok false => Some (Parsed v)
        | _ => None
        end
    | Py.Raise _ => None
    end
  else Some (Raw line).

(** The lines that decode to a value on which the ['__trace'] test is false. *)
Definition plain (l : string) (v : Py.json) : Prop :=
  Py.json_loads l = Some v /\ Py.contains "__trace" v = Py.Ok false.

End Vocabulary.

(** The counter moved by [k], nothing else touched. *)
Definition bump (k : Z) (self : Spout) : Spout :=
  set_dropped (_dropped self + k) self.

(** The specification's reading of a trace message, kept apart from the
    code's test: a decoded object that has the key ['__trace'].  Any other
    decoded value is not a trace message. *)
Definition spec_is_trace (v : Py.json) : bool :=
  match v with
  | Py.JObj d => bool_decide (is_Some (d !! "__trace"))
  | _ => false
  end.

(** The registration requests in a log. *)
Definition is_post (e : effect) : bool :=
  match e with Post _ _ _ _ _ => true | _ => false end.

Definition posts (es : list effect) : list effect := filter is_post es.

(** The queue holds no more than its bound. *)
Definition within_capacity {A} (q : Queue.t A) : Prop :=
  match Queue.maxsize q with
  | Some m => Queue.qsize q <= m
  | None => True
  end.

(** ** A concrete runtime, server and object for the examples *)

Module Fixture.

Definition dq : string := String (Ascii.ascii_of_nat 34) EmptyString.
Definition quoted (s : string) : string := dq +:+ s +:+ dq.

(** The line [{"__trace": "dropped", "n": <n>}]. *)
Definition dropped_line (n : string) : string :=
  "{" +:+ quoted "__trace" +:+ ": " +:+ quoted "dropped" +:+ ", " +:+
  quoted "n" +:+ ": " +:+ n +:+ "}".

(** The line [{"__trace": "dropped"}]. *)
Definition dropped_line_no_n : string :=
  "{" +:+ quoted "__trace" +:+ ": " +:+ quoted "dropped" +:+ "}".

(** The line [{"event": <n>}]. *)
Definition event_line (n : string) : string :=
  "{" +:+ quoted "event" +:+ ": " +:+ n +:+ "}".

Definition dropped_obj (n : Py.json) : Py.json :=
  Py.JObj (<["n" := n]> {["__trace" := Py.JStr "dropped"]}).

Definition event_obj (n : Z) : Py.json := Py.JObj {["event" := Py.JInt n]}.

(** What [json.loads] gives on the lines used below; any other line here
    stands for text that is not JSON. *)
Definition decoded : list (string * Py.json) :=
  [ (dropped_line "5", dropped_obj (Py.JInt 5));
    (dropped_line "-5", dropped_obj (Py.JInt (-5)));
    (dropped_line "null", dropped_obj Py.JNull);
    (dropped_line "true", dropped_obj (Py.JBool true));
    (dropped_line "2.5", dropped_obj (Py.JFloat (S754_finite false 5 (-1))));
    (dropped_line (quoted "7"), dropped_obj (Py.JStr "7"));
    (dropped_line_no_n, Py.JObj {["__trace" := Py.JStr "dropped"]});
    (event_line "1", event_obj 1);
    (event_line "2", event_obj 2);
    ("5", Py.JInt 5) ].

Fixpoint assoc (l : list (string * Py.json)) (k : string) : option Py.json :=
  match l with
  | [] => None
  | (k', v) :: rest => if String.eqb k k' then Some v else assoc rest k
  end.

Fixpoint digits (s : string) (acc : Z) : option Z :=
  match s with
  | EmptyString => Some acc
  | String c rest =>
      let n := Z.of_nat (Ascii.nat_of_ascii c) in
      if (48 <=? n) && (n <=? 57) then digits rest (10 * acc + (n - 48))
      else None
  end.

(** [int] on plain decimal numerals with an optional minus sign. *)
Definition numeral (s : string) : option Z :=
  match s with
  | EmptyString => None
  | String "-"%char EmptyString => None
  | String "-"%char rest => Z.opp <$> digits rest 0
  | _ => digits s 0
  end.

Definition runtime : Py.Runtime :=
  {| Py.json_loads := assoc decoded; Py.int_of_str := numeral |}.

Definition man : Manager :=
  {| man_oid := "8cbe27f4-bfa1-4afb-ba19-138cd51389cd";
     man_secret_api_key := "secret" |}.

Definition stream_url : string :=
  "https://output.limacharlie.io/output/stream/4f1c".

(** A server that answers the registration with one redirect. *)
Definition redirecting (url : string) (data : gmap string string)
    : Py.res Response :=
  Py.Ok {| conn := 0; history := [ {["Location" := stream_url]} ] |}.

(** A server that answers without a redirect. *)
Definition rejecting (url : string) (data : gmap string string)
    : Py.res Response :=
  Py.Ok {| conn := 0; history := [] |}.

(** The object that [__init__] builds against [redirecting]. *)
Definition spout (is_parse : bool) (max_buffer : Z) : Spout :=
  mkSpout man (man_oid man) (man_secret_api_key man) "event" None None None
    is_parse max_buffer 0 false (Queue.new max_buffer)
    (Some {| conn := 0; history := [ {["Location" := stream_url]} ] |})
    stream_url.

Definition streaming (self : Spout) : world := mkWorld self Streaming [] [].

End Fixture.

(** ** The command-line part of the module *)

(** What the command-line part does to the process. *)
Inductive cli_effect : Type :=
  | Stderr (text : string)
  | Exit (status : Z).

Definition newline : string := String (Ascii.ascii_of_nat 10) EmptyString.

(** [_printToStderr], for a message that is already a string. *)
Definition _printToStderr (msg : string) : list cli_effect :=
  [Stderr (msg +:+ newline)].

(** [_signal_handler].  [g] is the module's global [sp]: [None] until the
    constructor has returned.  The result is what the process sees, and the
    object after the call to [shutdown], if there is one. *)
Definition _signal_handler (g : option world) : list cli_effect * option world :=
  let out := _printToStderr "You pressed Ctrl+C!" in
  let g' :=
    match g with
    | Some w => let '(es, s) := shutdown (sp w) in Some (emit es (with_sp s w))
    | None => None
    end in
  (out ++ [Exit 0], g').

(** ** More vocabulary *)

(** The calls of [close] in a log. *)
Definition is_close (e : effect) : bool :=
  match e with Close _ => true | _ => false end.

Definition closes (es : list effect) : list effect := filter is_close es.

(** How many more messages fit into [q], out of [n] that are about to come. *)
Definition room {A} (q : Queue.t A) (n : nat) : nat :=
  match Queue.maxsize q with
  | Some m => (Z.to_nat m - length (Queue.items q))%nat
  | None => n
  end.

(** A message on which the reader's ['__trace'] test came out false, or a
    raw line. *)
Definition untraced (x : message) : Prop :=
  match x with
  | Parsed v => Py.contains "__trace" v = Py.Ok false
  | Raw _ => True
  end.

(** More lines for the examples: a keep-alive trace message, a string and an
    array that contain the text [__trace], a third event. *)
Module Sample.

Definition keepalive_line : string :=
  "{" +:+ Fixture.quoted "__trace" +:+ ": " +:+ Fixture.quoted "keepalive" +:+ "}".

Definition text_line : string := Fixture.quoted "my__trace".

Definition array_line : string := "[" +:+ Fixture.quoted "__trace" +:+ "]".

Definition decoded : list (string * Py.json) :=
  [ (keepalive_line, Py.JObj {["__trace" := Py.JStr "keepalive"]});
    (text_line, Py.JStr "my__trace");
    (array_line, Py.JArr [Py.JStr "__trace"]);
    (Fixture.event_line "3", Fixture.event_obj 3) ] ++ Fixture.decoded.

Definition runtime : Py.Runtime :=
  {| Py.json_loads := Fixture.assoc decoded; Py.int_of_str := Fixture.numeral |}.

(** A runtime in which no line decodes. *)
Definition deaf : Py.Runtime :=
  {| Py.json_loads := fun _ => None; Py.int_of_str := fun _ => None |}.

(** A server that answers the registration after two redirects. *)
Definition twice_redirecting (url : string) (data : gmap string string)
    : Py.res Response :=
  Py.Ok {| conn := 7;
           history := [ {["Location" := Fixture.stream_url]};
                        {["Location" := "https://elsewhere.example/"]} ] |}.

End Sample.

(** ** Basic facts *)

Lemma put_nowait_full {A} (x : A) (q : Queue.t A) :
  Queue.full q = true -> Queue.put_nowait x q = Py.Raise Py.Full.
Proof. unfold Queue.put_nowait. intros ->. reflexivity. Qed.

Lemma put_nowait_room {A} (x : A) (q : Queue.t A) :
  Queue.full q = false ->
  Queue.put_nowait x q = Py.Ok (Queue.mk (Queue.maxsize q) (Queue.items q ++ [x])).
Proof. unfold Queue.put_nowait. intros ->. reflexivity. Qed.

Lemma full_at_capacity {A} (q : Queue.t A) (m : Z) :
  Queue.maxsize q = Some m -> Queue.qsize q = m -> Queue.full q = true.
Proof.
  intros Hm Hs. unfold Queue.full. rewrite Hm, Hs. apply Z.leb_refl.
Qed.

Lemma put_nowait_outcome {A} (x : A) (q : Queue.t A) :
  Queue.put_nowait x q = Py.Raise Py.Full \/
  exists q', Queue.put_nowait x q = Py.Ok q' /\
             Queue.maxsize q' = Queue.maxsize q /\
             Queue.items q' = Queue.items q ++ [x].
Proof.
  unfold Queue.put_nowait. destruct (Queue.full q); [left | right]; eauto.
Qed.

Section LineFacts.
Context `{Py.Runtime}.

(** A line that reaches [put_nowait] is handled by [put_nowait] alone. *)
Lemma line_body_deliverable (self : Spout) (line : string) (x : message) :
  deliverable self line = Some x ->
  line_body self line =
    q ← Queue.put_nowait x (queue self); mret (set_queue q self).
Proof.
  unfold deliverable, line_body.
  destruct (_is_parse self).
  - destruct (Py.loads line) as [v|e]; simpl; [|discriminate].
    destruct (Py.contains "__trace" v) as [[|]|e]; simpl; try discriminate.
    intros [= <-]. reflexivity.
  - intros [= <-]. reflexivity.
Qed.

(** Whatever the body raises, the handler bumps the counter by one and
    keeps the rest of the object. *)
Lemma handle_line_raise (self : Spout) (line : string) (e : Py.exn) :
  line_body self line = Py.Raise e -> handle_line self line = bump 1 self.
Proof. unfold handle_line. intros ->. reflexivity. Qed.

Lemma handle_line_ok (self self' : Spout) (line : string) :
  line_body self line = Py.Ok self' -> handle_line self line = self'.
Proof. unfold handle_line. intros ->. reflexivity. Qed.

(** All that one line can do: nothing (a trace message that reports no
    drop), one drop counted by the handler, the server's count added, or one
    message appended to a queue that has room. *)
Lemma handle_line_cases (self : Spout) (line : string) :
  handle_line self line = self \/
  handle_line self line = bump 1 self \/
  (exists (d : gmap string Py.json) (f : Py.json) (n : Z),
     _is_parse self = true /\
     Py.json_loads line = Some (Py.JObj d) /\
     d !! "__trace" = Some (Py.JStr "dropped") /\
     d !! "n" = Some f /\
     Py.int f = Py.Ok n /\
     handle_line self line = bump n self) \/
  (exists x : message,
     deliverable self line = Some x /\
     Queue.full (queue self) = false /\
     handle_line self line =
       set_queue (Queue.mk (Queue.maxsize (queue self))
                    (Queue.items (queue self) ++ [x])) self).
Proof.
  unfold handle_line, line_body, deliverable, Py.loads, Queue.put_nowait.
  destruct (_is_parse self) eqn:Hp.
  - destruct (Py.json_loads line) as [v|] eqn:Hl; cbn; [|auto].
    destruct (Py.contains "__trace" v) as [[|]|e] eqn:Hc; cbn; [| |auto].
    + destruct v as [ | b | z | f | s | l | d]; cbn; auto.
      destruct (d !! "__trace") as [t|] eqn:Ht; cbn; [|auto].
      destruct t as [ | b | z | f | s | l | d']; cbn; auto.
      case_bool_decide as Hs; cbn; [subst s|auto].
      destruct (d !! "n") as [f|] eqn:Hn; cbn; [|auto].
      destruct (Py.int f) as [n|e] eqn:Hf; cbn; [|auto].
      right. right. left. exists d, f, n. auto 10.
    + destruct (Queue.full (queue self)) eqn:Hf; cbn; [auto|].
      right. right. right. eauto.
  - destruct (Queue.full (queue self)) eqn:Hf; cbn; [auto|].
    right. right. right. eauto.
Qed.

(** So a line changes the counter or the queue's items, never anything
    else. *)
Lemma handle_line_frame (self : Spout) (line : string) :
  let self' := handle_line self line in
  _isStop self' = _isStop self /\
  _finalSpoutUrl self' = _finalSpoutUrl self /\
  _hConn self' = _hConn self /\
  _is_parse self' = _is_parse self /\
  _max_buffer self' = _max_buffer self /\
  Queue.maxsize (queue self') = Queue.maxsize (queue self).
Proof.
  cbv zeta.
  destruct (handle_line_cases self line)
    as [-> | [-> | [(d & f & n & _ & _ & _ & _ & _ & ->) | (x & _ & _ & ->)]]];
    cbn; auto 10.
Qed.

Lemma for_lines_app (self : Spout) (l1 l2 : list string) :
  for_lines self (l1 ++ l2) = for_lines (for_lines self l1) l2.
Proof. unfold for_lines. apply fold_left_app. Qed.

Lemma for_lines_cons (self : Spout) (l : string) (ls : list string) :
  for_lines self (l :: ls) = for_lines (handle_line self l) ls.
Proof. reflexivity. Qed.

(** While the reader streams, a run of lines is the [for] loop over them. *)
Lemma run_lines (w : world) (lines : list string) :
  reader w = Streaming ->
  run (Line <$> lines) w = Some (with_sp (for_lines (sp w) lines) w).
Proof.
  revert w. induction lines as [|l ls IH]; intros w Hr.
  - destruct w; reflexivity.
  - simpl. unfold step, _handleConnection, consumer. rewrite Hr.
    rewrite IH by exact Hr. reflexivity.
Qed.

End LineFacts.

Example fixture_spout_is_constructed :
  snd (__init__ Fixture.redirecting Fixture.man "event" true 2 None None None)
  = Py.Ok (Fixture.spout true 2).
Proof. reflexivity. Qed.

(** ** Lines that are counted *)

Section Counted.
Context `{Py.Runtime}.

(** What the body does with a decoded ['dropped'] trace object. *)
Lemma line_body_dropped_trace (self : Spout) (line : string)
    (d : gmap string Py.json) :
  _is_parse self = true ->
  Py.json_loads line = Some (Py.JObj d) ->
  d !! "__trace" = Some (Py.JStr "dropped") ->
  line_body self line =
    field ← Py.getitem (Py.JObj d) "n";
    n ← Py.int field;
    mret (set_dropped (_dropped self + n) self).
Proof.
  intros Hp Hl Ht. unfold line_body, Py.loads. rewrite Hp, Hl. cbn.
  rewrite Ht. rewrite bool_decide_true by eauto. cbn.
  rewrite bool_decide_true by reflexivity. reflexivity.
Qed.

(** A line that does not decode raises in the body. *)
Lemma line_body_undecodable (self : Spout) (line : string) :
  _is_parse self = true ->
  Py.json_loads line = None ->
  line_body self line = Py.Raise Py.ValueError.
Proof.
  intros Hp Hl. unfold line_body, Py.loads. rewrite Hp, Hl. reflexivity.
Qed.

(** A line that reaches [put_nowait] while there is room is appended. *)
Lemma handle_line_delivers (self : Spout) (line : string) (x : message) :
  deliverable self line = Some x ->
  Queue.full (queue self) = false ->
  handle_line self line =
    set_queue (Queue.mk (Queue.maxsize (queue self))
                 (Queue.items (queue self) ++ [x])) self.
Proof.
  intros Hd Hf. unfold handle_line.
  rewrite (line_body_deliverable _ _ _ Hd), (put_nowait_room _ _ Hf).
  reflexivity.
Qed.

End Counted.

(** C1: when the bounded queue already holds [max_buffer] items, one more
    deliverable line raises [Full] at once in [put_nowait], the reader is
    back waiting for the next line, the drop counter has grown by exactly
    one and the queue is what it was. *)
Theorem full_queue_counts_one_drop `{Py.Runtime}
    (w : world) (line : string) (x : message) :
  reader w = Streaming ->
  deliverable (sp w) line = Some x ->
  Queue.maxsize (queue (sp w)) = Some (_max_buffer (sp w)) ->
  Queue.qsize (queue (sp w)) = _max_buffer (sp w) ->
  Queue.put_nowait x (queue (sp w)) = Py.Raise Py.Full /\
  exists w', step (Line line) w = Some w' /\
    reader w' = Streaming /\
    _dropped (sp w') = _dropped (sp w) + 1 /\
    queue (sp w') = queue (sp w) /\
    log w' = log w.
Proof.
  intros Hr Hd Hm Hs.
  pose proof (put_nowait_full x _ (full_at_capacity _ _ Hm Hs)) as Hfull.
  split; [exact Hfull|].
  exists (with_sp (bump 1 (sp w)) w).
  unfold step, _handleConnection, consumer. rewrite Hr.
  assert (line_body (sp w) line = Py.Raise Py.Full) as Hb.
  { rewrite (line_body_deliverable _ _ _ Hd), Hfull. reflexivity. }
  rewrite (handle_line_raise _ _ _ Hb). cbn. auto.
Qed.

Lemma full_queue_counts_one_drop_witness :
  let w := Fixture.streaming
             (set_queue (Queue.mk (Some 1) [Parsed (Fixture.event_obj 1)])
                (Fixture.spout true 1)) in
  exists w', @step Fixture.runtime (Line (Fixture.event_line "2")) w = Some w' /\
    reader w' = Streaming /\
    _dropped (sp w') = 1 /\
    queue (sp w') = queue (sp w) /\
    log w' = log w.
Proof.
  intros w.
  apply (@full_queue_counts_one_drop Fixture.runtime w
           (Fixture.event_line "2") (Parsed (Fixture.event_obj 2)));
    reflexivity.
Defined.

(** C2: a line that decodes to an object with ['__trace'] equal to
    ['dropped'] and an integer ['n'] adds exactly [n] to the drop counter and
    is not put on the queue. *)
Theorem dropped_trace_adds_n `{Py.Runtime}
    (w : world) (line : string) (d : gmap string Py.json) (n : Z) :
  reader w = Streaming ->
  _is_parse (sp w) = true ->
  Py.json_loads line = Some (Py.JObj d) ->
  d !! "__trace" = Some (Py.JStr "dropped") ->
  d !! "n" = Some (Py.JInt n) ->
  exists w', step (Line line) w = Some w' /\
    reader w' = Streaming /\
    _dropped (sp w') = _dropped (sp w) + n /\
    queue (sp w') = queue (sp w) /\
    consumed w' = consumed w.
Proof.
  intros Hr Hp Hl Ht Hn.
  exists (with_sp (bump n (sp w)) w).
  unfold step, _handleConnection, consumer. rewrite Hr.
  assert (line_body (sp w) line = Py.Ok (bump n (sp w))) as Hb.
  { rewrite (line_body_dropped_trace _ _ _ Hp Hl Ht). cbn. rewrite Hn.
    reflexivity. }
  rewrite (handle_line_ok _ _ _ Hb). cbn. auto.
Qed.

Lemma dropped_trace_adds_n_witness :
  exists w', @step Fixture.runtime (Line (Fixture.dropped_line "5"))
               (Fixture.streaming (Fixture.spout true 4)) = Some w' /\
    reader w' = Streaming /\
    _dropped (sp w') = 5 /\
    queue (sp w') = Queue.new 4 /\
    consumed w' = [].
Proof.
  apply (@dropped_trace_adds_n Fixture.runtime
           (Fixture.streaming (Fixture.spout true 4))
           (Fixture.dropped_line "5")
           (<["n" := Py.JInt 5]> {["__trace" := Py.JStr "dropped"]}) 5);
    reflexivity.
Defined.

(** C3: a line that does not decode while parsing is on adds exactly one to
    the drop counter, puts nothing on the queue and leaves the reader inside
    the same [for] loop: the lines after it are processed as if the bad line
    had only moved the counter, and a later deliverable line that finds room
    is appended to the queue.  The same containment holds for whatever the
    body raises, on any line: the handler counts one drop, and the reader
    stays in the loop without touching the network. *)
Theorem undecodable_line_is_contained `{Py.Runtime} (w : world) (line : string) :
  reader w = Streaming ->
  _is_parse (sp w) = true ->
  Py.json_loads line = None ->
  (exists w', step (Line line) w = Some w' /\
     reader w' = Streaming /\
     _dropped (sp w') = _dropped (sp w) + 1 /\
     queue (sp w') = queue (sp w) /\
     log w' = log w /\
     (forall rest : list string,
        run (Line <$> (line :: rest)) w =
          Some (with_sp (for_lines (bump 1 (sp w)) rest) w)) /\
     (forall (between : list string) (good : string) (x : message),
        let before := for_lines (sp w') between in
        deliverable before good = Some x ->
        Queue.full (queue before) = false ->
        Queue.items (queue (for_lines (sp w') (between ++ [good]))) =
          Queue.items (queue before) ++ [x])) /\
  (forall (self : Spout) (l : string) (e : Py.exn),
     line_body self l = Py.Raise e -> handle_line self l = bump 1 self) /\
  (forall (v : world) (l : string),
     reader v = Streaming ->
     exists v', step (Line l) v = Some v' /\
       reader v' = Streaming /\ log v' = log v).
Proof.
  intros Hr Hp Hl.
  pose proof (handle_line_raise _ _ _ (line_body_undecodable _ _ Hp Hl)) as Hh.
  split; [|split].
  - exists (with_sp (bump 1 (sp w)) w).
    split; [unfold step, _handleConnection, consumer; rewrite Hr, Hh; reflexivity|].
    split; [exact Hr|]. do 3 (split; [reflexivity|]). split.
    + intros rest. rewrite (run_lines _ _ Hr), for_lines_cons, Hh. reflexivity.
    + intros between good x before Hd Hf.
      rewrite for_lines_app. fold before. cbn.
      rewrite (handle_line_delivers _ _ _ Hd Hf). reflexivity.
  - intros self l e. apply handle_line_raise.
  - intros v l Hv. exists (with_sp (handle_line (sp v) l) v).
    unfold step, _handleConnection, consumer. rewrite Hv. auto.
Qed.

Lemma undecodable_line_is_contained_witness :
  let w := Fixture.streaming (Fixture.spout true 4) in
  exists w', @step Fixture.runtime (Line "not json") w = Some w' /\
    reader w' = Streaming /\
    _dropped (sp w') = 1 /\
    queue (sp w') = Queue.new 4 /\
    @run Fixture.runtime
      (Line <$> ["not json"; Fixture.event_line "1"; Fixture.event_line "2"]) w
    = Some (with_sp
              (set_queue
                 (Queue.mk (Some 4)
                    [Parsed (Fixture.event_obj 1); Parsed (Fixture.event_obj 2)])
                 (bump 1 (sp w))) w).
Proof.
  intros w.
  destruct (@undecodable_line_is_contained Fixture.runtime w "not json")
    as [(w' & Hs & Hr & Hd & Hq & _ & Hrun & _) _];
    [reflexivity | reflexivity | reflexivity |].
  exists w'.
  split; [exact Hs|]. split; [exact Hr|]. split; [exact Hd|].
  split; [exact Hq|].
  rewrite (Hrun [Fixture.event_line "1"; Fixture.event_line "2"]).
  reflexivity.
Defined.

(** C10: a line that decodes to an object with ['__trace'] equal to
    ['dropped'] whose ['n'] is missing, or is a value that [int] rejects,
    raises inside the body; the handler adds exactly one to the drop counter,
    nothing is put on the queue and the reader stays in the loop. *)
Theorem dropped_trace_without_count `{Py.Runtime}
    (w : world) (line : string) (d : gmap string Py.json) :
  reader w = Streaming ->
  _is_parse (sp w) = true ->
  Py.json_loads line = Some (Py.JObj d) ->
  d !! "__trace" = Some (Py.JStr "dropped") ->
  (d !! "n" = None \/
   exists (f : Py.json) (e : Py.exn), d !! "n" = Some f /\ Py.int f = Py.Raise e) ->
  (exists e, line_body (sp w) line = Py.Raise e) /\
  exists w', step (Line line) w = Some w' /\
    reader w' = Streaming /\
    _dropped (sp w') = _dropped (sp w) + 1 /\
    queue (sp w') = queue (sp w) /\
    log w' = log w.
Proof.
  intros Hr Hp Hl Ht Hn.
  assert (exists e, line_body (sp w) line = Py.Raise e) as [e He].
  { rewrite (line_body_dropped_trace _ _ _ Hp Hl Ht). cbn.
    destruct Hn as [-> | (f & e & -> & Hf)]; cbn; [eauto|].
    rewrite Hf. eauto. }
  split; [eauto|].
  exists (with_sp (bump 1 (sp w)) w).
  unfold step, _handleConnection, consumer. rewrite Hr, (handle_line_raise _ _ _ He). cbn. auto.
Qed.

Lemma dropped_trace_without_count_witness :
  let w := Fixture.streaming (Fixture.spout true 4) in
  (exists w', @step Fixture.runtime (Line Fixture.dropped_line_no_n) w = Some w' /\
     reader w' = Streaming /\ _dropped (sp w') = 1 /\
     queue (sp w') = Queue.new 4 /\ log w' = []) /\
  (exists w', @step Fixture.runtime (Line (Fixture.dropped_line "null")) w = Some w' /\
     reader w' = Streaming /\ _dropped (sp w') = 1 /\
     queue (sp w') = Queue.new 4 /\ log w' = []).
Proof.
  intros w. split.
  - apply (@dropped_trace_without_count Fixture.runtime w
             Fixture.dropped_line_no_n {["__trace" := Py.JStr "dropped"]});
      try reflexivity.
    left. reflexivity.
  - apply (@dropped_trace_without_count Fixture.runtime w
             (Fixture.dropped_line "null")
             (<["n" := Py.JNull]> {["__trace" := Py.JStr "dropped"]}));
      try reflexivity.
    right. exists Py.JNull, Py.TypeError. split; reflexivity.
Defined.

(** ** Order of delivery *)

(** On objects the code's test and the specification's reading agree. *)
Lemma contains_trace_on_objects (d : gmap string Py.json) :
  Py.contains "__trace" (Py.JObj d) = Py.Ok (spec_is_trace (Py.JObj d)).
Proof. reflexivity. Qed.

Lemma object_without_trace_key (d : gmap string Py.json) :
  d !! "__trace" = None -> Py.contains "__trace" (Py.JObj d) = Py.Ok false.
Proof.
  intros Hd. cbn. rewrite Hd. rewrite bool_decide_false; [reflexivity|].
  intros [x Hx]. discriminate.
Qed.

Lemma drain_prefix {A} (m : option Z) (xs ys : list A) :
  Queue.drain (length xs) (Queue.mk m (xs ++ ys)) = Some (xs, Queue.mk m ys).
Proof.
  induction xs as [|x xs IH]; [reflexivity|].
  cbn. unfold Queue.get. cbn. rewrite IH. reflexivity.
Qed.

Section Delivery.
Context `{Py.Runtime}.

Lemma plain_deliverable (self : Spout) (l : string) (v : Py.json) :
  _is_parse self = true -> plain l v -> deliverable self l = Some (Parsed v).
Proof.
  intros Hp [Hl Hc]. unfold deliverable, Py.loads. rewrite Hp, Hl, Hc.
  reflexivity.
Qed.

(** As long as the lines fit, the [for] loop appends their values in order
    and changes nothing else. *)
Lemma for_lines_appends (lines : list string) (vs : list Py.json) :
  Forall2 plain lines vs ->
  forall self : Spout,
    _is_parse self = true ->
    (forall m, Queue.maxsize (queue self) = Some m ->
               Queue.qsize (queue self) + Z.of_nat (length lines) <= m) ->
    for_lines self lines =
      set_queue (Queue.mk (Queue.maxsize (queue self))
                   (Queue.items (queue self) ++ (Parsed <$> vs))) self.
Proof.
  induction 1 as [|l v ls vs Hlv _ IH]; intros self Hp Hcap.
  - cbn. rewrite app_nil_r. destruct self as [? ? ? ? ? ? ? ? ? ? ? [? ?] ? ?].
    reflexivity.
  - rewrite for_lines_cons.
    assert (Queue.full (queue self) = false) as Hf.
    { unfold Queue.full. destruct (Queue.maxsize (queue self)) as [m|] eqn:Hm;
        [|reflexivity].
      specialize (Hcap m eq_refl). cbn [length] in Hcap.
      apply Z.leb_gt. lia. }
    rewrite (handle_line_delivers _ _ _ (plain_deliverable _ _ _ Hp Hlv) Hf).
    rewrite IH.
    + cbn. rewrite <- app_assoc. reflexivity.
    + exact Hp.
    + cbn. intros m Hm. specialize (Hcap m Hm).
      unfold Queue.qsize in *. cbn [Queue.items length] in *.
      rewrite length_app. cbn [length] in *. lia.
Qed.

End Delivery.

(** C4, as the claim words it, fails: the line [5] decodes (to the integer 5)
    and is no trace message, the queue is empty with room for it, and yet
    the line is counted as a drop and nothing can be taken from the queue. *)
Lemma scalar_line_is_dropped :
  let self := Fixture.spout true 1 in
  let self' := @for_lines Fixture.runtime self ["5"] in
  _is_parse self = true /\
  queue self = Queue.new 1 /\
  @Py.json_loads Fixture.runtime "5" = Some (Py.JInt 5) /\
  spec_is_trace (Py.JInt 5) = false /\
  Queue.items (queue self') = [] /\
  Queue.drain 1 (queue self') = None /\
  _dropped self' = 1.
Proof. repeat split. Qed.

(** C4, amended: [N] lines that each decode to a value on which the test
    ['__trace' in value] is false (an object without that key, in
    particular), read into an empty queue of capacity [C >= N], leave exactly
    their decoded values on the queue in the order of the lines, count no
    drop, and [N] successive [get]s return them in that order.  A line that
    decodes to a value on which that test raises (a number, a boolean or
    null) is not delivered: it counts as one drop. *)
Theorem plain_lines_arrive_in_order `{Py.Runtime}
    (self : Spout) (C : Z) (lines : list string) (vs : list Py.json) :
  _is_parse self = true ->
  queue self = Queue.new C ->
  Z.of_nat (length lines) <= C ->
  Forall2 plain lines vs ->
  let self' := for_lines self lines in
  Queue.items (queue self') = Parsed <$> vs /\
  Queue.drain (length lines) (queue self') =
    Some (Parsed <$> vs, Queue.new C) /\
  _dropped self' = _dropped self /\
  (forall (l : string) (v : Py.json) (e : Py.exn),
     Py.json_loads l = Some v ->
     Py.contains "__trace" v = Py.Raise e ->
     handle_line self l = bump 1 self /\
     (v = Py.JNull \/ (exists b, v = Py.JBool b) \/
      (exists z, v = Py.JInt z) \/ (exists f, v = Py.JFloat f))).
Proof.
  intros Hp Hq HC Hlv self'.
  assert (forall (l : string) (v : Py.json) (e : Py.exn),
            Py.json_loads l = Some v ->
            Py.contains "__trace" v = Py.Raise e ->
            handle_line self l = bump 1 self /\
            (v = Py.JNull \/ (exists b, v = Py.JBool b) \/
             (exists z, v = Py.JInt z) \/ (exists f, v = Py.JFloat f)))
    as Hscalar.
  { intros l v e Hl Hc. split.
    - apply (handle_line_raise self l e).
      unfold line_body, Py.loads. rewrite Hp, Hl. cbn. rewrite Hc. reflexivity.
    - destruct v; try discriminate Hc; eauto. }
  assert (for_lines self lines =
          set_queue (Queue.mk (Queue.maxsize (queue self)) (Parsed <$> vs)) self)
    as Hfor.
  { rewrite (for_lines_appends _ _ Hlv self Hp).
    - rewrite Hq. reflexivity.
    - rewrite Hq. unfold Queue.new, Queue.qsize. cbn.
      destruct (C <=? 0) eqn:HC0; [discriminate|].
      intros m [= <-]. lia. }
  subst self'. rewrite Hfor. cbn. split; [reflexivity|].
  split; [|split; [reflexivity|exact Hscalar]].
  rewrite (Forall2_length _ _ _ Hlv).
  rewrite <- (length_fmap Parsed vs).
  rewrite <- (app_nil_r (Parsed <$> vs)) at 2.
  rewrite drain_prefix. rewrite Hq. reflexivity.
Qed.

Lemma plain_lines_arrive_in_order_witness :
  let lines := [Fixture.event_line "1"; Fixture.event_line "2"] in
  let vs := [Fixture.event_obj 1; Fixture.event_obj 2] in
  let self' := @for_lines Fixture.runtime (Fixture.spout true 2) lines in
  Queue.items (queue self') = Parsed <$> vs /\
  Queue.drain 2 (queue self') = Some (Parsed <$> vs, Queue.new 2) /\
  _dropped self' = 0.
Proof.
  intros lines vs.
  destruct (@plain_lines_arrive_in_order Fixture.runtime
              (Fixture.spout true 2) 2 lines vs)
    as (Hitems & Hdrain & Hdropped & _).
  - reflexivity.
  - reflexivity.
  - cbn. lia.
  - repeat constructor.
  - auto.
Defined.

(** ** The life of the reader *)

Lemma requests_app (l1 l2 : list effect) :
  requests (l1 ++ l2) = requests l1 ++ requests l2.
Proof. apply filter_app. Qed.

Lemma posts_app (l1 l2 : list effect) :
  posts (l1 ++ l2) = posts l1 ++ posts l2.
Proof. apply filter_app. Qed.

Section Life.
Context `{Py.Runtime}.

(** What one move can do to the parts of the world that the lifecycle
    claims talk about. *)
Lemma step_frame (i : input) (w w' : world) :
  step i w = Some w' ->
  _finalSpoutUrl (sp w') = _finalSpoutUrl (sp w) /\
  posts (log w') = posts (log w) /\
  (_isStop (sp w) = true -> _isStop (sp w') = true) /\
  Queue.maxsize (queue (sp w')) = Queue.maxsize (queue (sp w)).
Proof.
  unfold step, _handleConnection, consumer, stream_over, loop_head, shutdown.
  destruct i as [ | l | | msg | [r|e] | | | ], (reader w) eqn:Hr;
    try discriminate; cbn;
    repeat match goal with
    | |- context [negb (_isStop ?s)] => destruct (_isStop s) eqn:?; cbn
    | |- context [_hConn ?s] => destruct (_hConn s) eqn:?; cbn
    | |- context [Queue.get ?q] =>
        unfold Queue.get; destruct (Queue.items q) eqn:?; cbn
    end;
    intros [= <-]; cbn;
    rewrite ?posts_app, ?app_nil_r;
    try (destruct (handle_line_frame (sp w) l) as (? & ? & ? & ? & ? & ?));
    repeat split; try congruence; auto.
Qed.

Lemma run_frame (ins : list input) (w w' : world) :
  run ins w = Some w' ->
  _finalSpoutUrl (sp w') = _finalSpoutUrl (sp w) /\
  posts (log w') = posts (log w) /\
  (_isStop (sp w) = true -> _isStop (sp w') = true).
Proof.
  revert w. induction ins as [|i ins IH]; intros w; cbn.
  - intros [= <-]. auto.
  - destruct (step i w) as [w1|] eqn:Hs; [|discriminate].
    intros Hrun. destruct (step_frame _ _ _ Hs) as (Hu & Hp & Hstop & _).
    destruct (IH _ Hrun) as (Hu' & Hp' & Hstop').
    repeat split; try congruence. auto.
Qed.

(** With the flag set, a move sends no request, opens no new stream, and
    any move of the reader other than one more line of the stream it is
    already reading takes it out of the loop. *)
Lemma step_stopping (i : input) (w w' : world) :
  _isStop (sp w) = true ->
  step i w = Some w' ->
  requests (log w') = requests (log w) /\
  (reader w' = Streaming -> reader w = Streaming /\ _hConn (sp w') = _hConn (sp w)) /\
  (reader w' = Connecting -> reader w = Connecting) /\
  (reader w' = Spawned -> reader w = Spawned) /\
  (reader_input i = true -> (forall l, i <> Line l) ->
   exists e, reader w' = Exited e).
Proof.
  intros Hstop Hstep. unfold step, _handleConnection, consumer in Hstep.
  destruct i as [ | l | | msg | [r|e] | | | ], (reader w) eqn:Hr;
    cbv beta iota in Hstep; try discriminate;
    unfold stream_over, loop_head, shutdown, Queue.get in Hstep;
    cbn in Hstep; rewrite ?Hstop in Hstep; cbn in Hstep;
    repeat case_match; simplify_eq; cbn;
    rewrite ?requests_app, ?app_nil_r; cbn;
    try (destruct (handle_line_frame (sp w) l) as (? & ? & ? & ? & ? & ?));
    repeat split; try congruence; try discriminate; eauto.
  intros _ Hl. exfalso. apply (Hl l). reflexivity.
Qed.

End Life.

Section Runs.
Context `{Py.Runtime}.

Lemma run_stopping (ins : list input) (w w' : world) :
  _isStop (sp w) = true ->
  run ins w = Some w' ->
  _isStop (sp w') = true /\
  requests (log w') = requests (log w) /\
  (reader w' = Streaming ->
   reader w = Streaming /\ _hConn (sp w') = _hConn (sp w)) /\
  (reader w' = Connecting -> reader w = Connecting).
Proof.
  revert w. induction ins as [|i ins IH]; intros w Hstop; cbn.
  - intros [= <-]. auto.
  - destruct (step i w) as [w1|] eqn:Hs; [|discriminate]. intros Hrun.
    destruct (step_frame _ _ _ Hs) as (_ & _ & Hkeep & _).
    destruct (step_stopping _ _ _ Hstop Hs) as (Hq & Hstr & Hcon & _).
    destruct (IH _ (Hkeep Hstop) Hrun) as (Hstop' & Hq' & Hstr' & Hcon').
    split; [exact Hstop'|]. split; [congruence|]. split.
    + intros Hw'. destruct (Hstr' Hw') as [H1 H2].
      destruct (Hstr H1) as [H3 H4]. split; congruence.
    + auto.
Qed.

(** A reader that has left the loop stays out of it. *)
Lemma run_exited (ins : list input) (w w' : world) (e : option Py.exn) :
  reader w = Exited e -> run ins w = Some w' -> reader w' = Exited e.
Proof.
  revert w. induction ins as [|i ins IH]; intros w Hr; cbn.
  - intros [= <-]. exact Hr.
  - destruct (step i w) as [w1|] eqn:Hs; [|discriminate].
    apply IH. unfold step, _handleConnection, consumer in Hs. rewrite Hr in Hs.
    destruct i as [ | l | | msg | [r|x] | | | ]; try discriminate;
      unfold shutdown, Queue.get in Hs; repeat case_match; simplify_eq;
      cbn; auto.
Qed.

(** The end of a stream with the flag unset: one request, a [GET] of the
    stored address that follows no redirect, and the object is untouched. *)
Lemma stream_over_reconnects (err : option string) (w : world) :
  _isStop (sp w) = false ->
  let w' := stream_over err w in
  reader w' = Connecting /\
  sp w' = sp w /\
  requests (log w') =
    requests (log w) ++ [Get (_finalSpoutUrl (sp w)) true false _TIMEOUT_SEC].
Proof.
  intros Hstop. unfold stream_over. cbn. rewrite Hstop. cbn.
  split; [reflexivity|]. split; [reflexivity|].
  rewrite !requests_app. destruct err; cbn; rewrite ?app_nil_r; reflexivity.
Qed.

End Runs.

(** The address that the constructor stores is the [Location] of the first
    redirect of the registration, and the registration is the only request
    the constructor sends. *)
Lemma init_records_redirect
    (post : string -> gmap string string -> Py.res Response)
    (man : Manager) (data_type : string) (is_parse : bool) (max_buffer : Z)
    (inv_id tag cat : option string) (es : list effect) (self : Spout) :
  __init__ post man data_type is_parse max_buffer inv_id tag cat
    = (es, Py.Ok self) ->
  let url := "https://output.limacharlie.io/output/" +:+ man_oid man in
  let params := spoutParams (man_secret_api_key man) data_type inv_id tag cat in
  exists (r : Response) (first : gmap string string) (rest : list (gmap string string)),
    post url params = Py.Ok r /\
    history r = first :: rest /\
    first !! "Location" = Some (_finalSpoutUrl self) /\
    _hConn self = Some r /\
    _isStop self = false /\
    es = [Post url params true true _TIMEOUT_SEC; Spawn].
Proof.
  intros Hinit. cbv zeta. unfold __init__ in Hinit.
  repeat case_match; simplify_eq. cbn. eauto 10.
Qed.

(** C5: when the stream of the current connection ends, cleanly or with an
    exception, while the flag is unset, the reader sends exactly one request:
    a [GET] of the stored address with redirects off; it waits for that
    answer and, when it comes, reads from the new connection.  Over any run
    the stored address stays what the constructor recorded and no further
    [POST] is sent. *)
Theorem reconnect_uses_recorded_url `{Py.Runtime} (w : world) (i : input) :
  reader w = Streaming ->
  _isStop (sp w) = false ->
  (i = StreamEnd \/ exists msg, i = StreamError msg) ->
  (exists w', step i w = Some w' /\
     reader w' = Connecting /\
     sp w' = sp w /\
     requests (log w') =
       requests (log w) ++
       [Get (_finalSpoutUrl (sp w)) true false _TIMEOUT_SEC] /\
     (forall r : Response,
        exists w'', step (GetReturns (Py.Ok r)) w' = Some w'' /\
          reader w'' = Streaming /\
          _hConn (sp w'') = Some r /\
          requests (log w'') = requests (log w'))) /\
  (forall (ins : list input) (v v' : world),
     run ins v = Some v' ->
     _finalSpoutUrl (sp v') = _finalSpoutUrl (sp v) /\
     posts (log v') = posts (log v)) /\
  (forall post man data_type is_parse max_buffer inv_id tag cat es self,
     __init__ post man data_type is_parse max_buffer inv_id tag cat
       = (es, Py.Ok self) ->
     exists r first rest,
       post ("https://output.limacharlie.io/output/" +:+ man_oid man)
            (spoutParams (man_secret_api_key man) data_type inv_id tag cat)
         = Py.Ok r /\
       history r = first :: rest /\
       first !! "Location" = Some (_finalSpoutUrl self)).
Proof.
  intros Hr Hstop Hi. split; [|split].
  - assert (exists err, step i w = Some (stream_over err w)) as [err Hs].
    { unfold step, _handleConnection, consumer. rewrite Hr.
      destruct Hi as [-> | [msg ->]]; eauto. }
    destruct (stream_over_reconnects err w Hstop) as (Hc & Hsp & Hreq).
    exists (stream_over err w). repeat (split; [assumption|]).
    intros r. unfold step, _handleConnection, consumer. rewrite Hc.
    eexists. split; [reflexivity|].
    unfold loop_head. cbn. rewrite Hsp, Hstop. cbn.
    rewrite requests_app, app_nil_r. auto.
  - intros ins v v' Hrun. destruct (run_frame _ _ _ Hrun) as (? & ? & _). auto.
  - intros post man data_type is_parse max_buffer inv_id tag cat es self Hinit.
    destruct (init_records_redirect _ _ _ _ _ _ _ _ _ _ Hinit)
      as (r & first & rest & ? & ? & ? & _).
    exists r, first, rest. auto.
Qed.

Lemma reconnect_uses_recorded_url_witness :
  let w := Fixture.streaming (Fixture.spout true 4) in
  exists w', @step Fixture.runtime (StreamError "timed out") w = Some w' /\
    reader w' = Connecting /\
    sp w' = sp w /\
    requests (log w') = [Get Fixture.stream_url true false 121].
Proof.
  intros w.
  destruct (@reconnect_uses_recorded_url Fixture.runtime w
              (StreamError "timed out"))
    as [(w' & Hs & Hc & Hsp & Hreq & _) _].
  - reflexivity.
  - reflexivity.
  - right. exists "timed out". reflexivity.
  - exists w'. auto.
Defined.

(** C6: [shutdown] sets the flag, and no move ever unsets it.  From a state
    with the flag set, no run sends another request; the reader is never
    found reading a stream other than the one it was already reading, nor
    waiting for a reconnection it had not already asked for; and the next
    time the reader comes back from the network with anything but one more
    line, it leaves the loop, where it then stays. *)
Theorem stopping_is_final `{Py.Runtime} (w w' : world) (ins : list input) :
  _isStop (sp w) = true ->
  run ins w = Some w' ->
  _isStop (sp w') = true /\
  requests (log w') = requests (log w) /\
  (reader w' = Streaming ->
   reader w = Streaming /\ _hConn (sp w') = _hConn (sp w)) /\
  (reader w' = Connecting -> reader w = Connecting) /\
  (forall (i : input) (w'' : world),
     reader_input i = true -> (forall l, i <> Line l) ->
     step i w' = Some w'' -> exists e, reader w'' = Exited e) /\
  (reader w' = Streaming ->
   exists w'', step StreamEnd w' = Some w'' /\ reader w'' = Exited None /\
     requests (log w'') = requests (log w')) /\
  (forall (more : list input) (w'' : world) (e : option Py.exn),
     reader w' = Exited e -> run more w' = Some w'' -> reader w'' = Exited e) /\
  (forall w0 : world,
     exists w1, step CallShutdown w0 = Some w1 /\
       _isStop (sp w1) = true /\ reader w1 = reader w0 /\
       requests (log w1) = requests (log w0)).
Proof.
  intros Hstop Hrun.
  destruct (run_stopping _ _ _ Hstop Hrun) as (Hstop' & Hreq & Hstr & Hcon).
  repeat (split; [assumption|]). split; [|split; [|split]].
  - intros i w'' Hi Hl Hs.
    destruct (step_stopping _ _ _ Hstop' Hs) as (_ & _ & _ & _ & Hex). auto.
  - intros Hr. unfold step, _handleConnection, consumer. rewrite Hr. eexists. split; [reflexivity|].
    unfold stream_over, loop_head. cbn. rewrite Hstop'. cbn.
    split; [reflexivity|]. rewrite requests_app, app_nil_r. reflexivity.
  - intros more w'' e Hr Hmore. exact (run_exited _ _ _ _ Hr Hmore).
  - intros w0. unfold step, _handleConnection, consumer, shutdown.
    destruct (_hConn (set_isStop true (sp w0))) eqn:Hc;
      destruct (reader w0) eqn:Hr0; eexists; (split; [reflexivity|]); cbn;
      rewrite ?requests_app, ?app_nil_r; auto.
Qed.

Lemma stopping_is_final_witness :
  let w0 := Fixture.streaming (Fixture.spout true 4) in
  exists w w',
    @step Fixture.runtime CallShutdown w0 = Some w /\
    @run Fixture.runtime [Line (Fixture.event_line "1"); StreamError "closed"] w
      = Some w' /\
    _isStop (sp w') = true /\
    requests (log w') = [] /\
    reader w' = Exited None.
Proof.
  intros w0. eexists. eexists.
  split; [reflexivity|]. split; [reflexivity|].
  match goal with
  | |- _isStop (sp ?b) = true /\ _ =>
      destruct (@stopping_is_final Fixture.runtime
                  (emit [Close 0] (with_sp (set_isStop true (sp w0)) w0)) b
                  [Line (Fixture.event_line "1"); StreamError "closed"])
        as (Hs & Hq & _)
  end.
  - reflexivity.
  - reflexivity.
  - split; [exact Hs|]. split; [exact Hq|]. reflexivity.
Defined.

(** ** The drop counter *)

Section Counter.
Context `{Py.Runtime}.

(** The three things one line can do to the counter. *)
Lemma handle_line_counter (self : Spout) (line : string) :
  _dropped (handle_line self line) = _dropped self \/
  _dropped (handle_line self line) = _dropped self + 1 \/
  exists (d : gmap string Py.json) (f : Py.json) (n : Z),
    _is_parse self = true /\
    Py.json_loads line = Some (Py.JObj d) /\
    d !! "__trace" = Some (Py.JStr "dropped") /\
    d !! "n" = Some f /\
    Py.int f = Py.Ok n /\
    _dropped (handle_line self line) = _dropped self + n.
Proof.
  destruct (handle_line_cases self line)
    as [-> | [-> | [(d & f & n & ? & ? & ? & ? & ? & Hh) | (x & _ & _ & ->)]]];
    cbn; auto.
  right. right. exists d, f, n. rewrite Hh. cbn. auto 10.
Qed.

End Counter.

(** What [int] makes of the other kinds of ['n']: a boolean counts as 0 or
    1, a float is truncated, a numeral in a string is read; none of these
    raises, so the handler is not involved. *)
Example converted_counts_are_added :
  let self := Fixture.spout true 4 in
  _dropped (@handle_line Fixture.runtime self (Fixture.dropped_line "true")) = 1 /\
  _dropped (@handle_line Fixture.runtime self (Fixture.dropped_line "2.5")) = 2 /\
  _dropped (@handle_line Fixture.runtime self
              (Fixture.dropped_line (Fixture.quoted "7"))) = 7.
Proof. repeat split. Qed.

(** C7, as the claim words it, fails: a trace line that reports [n = -5]
    is a move of the reader, not a reset, and it takes the counter from 3
    down to -2. *)
Lemma negative_trace_lowers_counter :
  let w := Fixture.streaming (bump 3 (Fixture.spout true 4)) in
  let i := Line (Fixture.dropped_line "-5") in
  exists w', @step Fixture.runtime i w = Some w' /\
    reader_input i = true /\
    getDropped (sp w) = 3 /\
    getDropped (sp w') = -2 /\
    getDropped (sp w') < getDropped (sp w).
Proof.
  intros w i. eexists. split; [reflexivity|]. repeat split.
Qed.

(** C7, amended: no move other than [resetDroppedCounter] lowers the drop
    counter, provided the move is not a ['dropped'] trace line whose ['n']
    converts to a negative integer; [resetDroppedCounter] sets the counter to
    exactly 0, whatever it was, so that [getDropped] then returns 0. *)
Theorem drop_counter_monotone `{Py.Runtime} (w w' : world) (i : input) :
  step i w = Some w' ->
  i <> CallReset ->
  (forall (l : string) (d : gmap string Py.json) (f : Py.json) (n : Z),
     i = Line l ->
     _is_parse (sp w) = true ->
     Py.json_loads l = Some (Py.JObj d) ->
     d !! "__trace" = Some (Py.JStr "dropped") ->
     d !! "n" = Some f ->
     Py.int f = Py.Ok n ->
     0 <= n) ->
  getDropped (sp w) <= getDropped (sp w') /\
  (forall v : Spout, getDropped (resetDroppedCounter v) = 0) /\
  (forall v : world,
     exists v', step CallReset v = Some v' /\ getDropped (sp v') = 0).
Proof.
  intros Hs Hi Hn. split; [|split].
  - unfold getDropped. unfold step, _handleConnection, consumer in Hs.
    destruct i as [ | l | | msg | [r|e] | | | ], (reader w) eqn:Hr;
      cbv beta iota in Hs; try discriminate; try congruence;
      unfold stream_over, loop_head, shutdown, Queue.get in Hs;
      cbn in Hs; repeat case_match; simplify_eq; cbn; try lia.
    destruct (handle_line_counter (sp w) l)
      as [-> | [-> | (d & f & n & Hp & Hl & Ht & Hf & Hc & ->)]]; try lia.
    specialize (Hn l d f n eq_refl Hp Hl Ht Hf Hc). lia.
  - reflexivity.
  - intros v. unfold step, _handleConnection, consumer.
    exists (with_sp (resetDroppedCounter (sp v)) v).
    destruct (reader v); auto.
Qed.

Lemma drop_counter_monotone_witness :
  let w := Fixture.streaming (bump 3 (Fixture.spout true 4)) in
  exists w', @step Fixture.runtime (Line (Fixture.dropped_line "5")) w = Some w' /\
    getDropped (sp w) <= getDropped (sp w') /\
    getDropped (sp w') = 8.
Proof.
  intros w. eexists. split; [reflexivity|]. split; [|reflexivity].
  match goal with
  | |- _ <= getDropped (sp ?b) =>
      apply (@drop_counter_monotone Fixture.runtime w b
               (Line (Fixture.dropped_line "5")))
  end.
  - reflexivity.
  - discriminate.
  - intros l d f n [= <-] _ [= <-] _ Hf Hn.
    vm_compute in Hf. injection Hf as <-. cbn in Hn. injection Hn as <-. lia.
Defined.

(** ** Construction *)

(** C8: when the registration gets no redirect (the request raises, or its
    answer has an empty redirect history), the constructor ends with an
    exception instead of an object, and it has not spawned the reader: with a
    supported data type the one thing it did is the registration request, and
    the exception is the one from the request or the [IndexError] from the
    empty history. *)
Theorem construction_fails_without_redirect
    (post : string -> gmap string string -> Py.res Response)
    (man : Manager) (data_type : string) (is_parse : bool) (max_buffer : Z)
    (inv_id tag cat : option string) :
  let url := "https://output.limacharlie.io/output/" +:+ man_oid man in
  let params := spoutParams (man_secret_api_key man) data_type inv_id tag cat in
  (forall r, post url params = Py.Ok r -> history r = []) ->
  exists (es : list effect) (e : Py.exn),
    __init__ post man data_type is_parse max_buffer inv_id tag cat
      = (es, Py.Raise e) /\
    (Spawn ∉ es) /\
    (data_type ∈ ["event"; "detect"; "audit"] ->
     es = [Post url params true true _TIMEOUT_SEC] /\
     (post url params = Py.Raise e \/
      e = Py.IndexError /\ exists r, post url params = Py.Ok r)).
Proof.
  intros url params Hno. unfold __init__. fold url params.
  case_bool_decide as Hdt; cbn.
  - destruct (post url params) as [r|e] eqn:Hpost.
    + rewrite (Hno r eq_refl).
      exists [Post url params true true _TIMEOUT_SEC], Py.IndexError.
      split; [reflexivity|]. split.
      * intros Hin. apply list_elem_of_singleton in Hin. discriminate.
      * intros _. split; [reflexivity|]. right. eauto.
    + exists [Post url params true true _TIMEOUT_SEC], e.
      split; [reflexivity|]. split.
      * intros Hin. apply list_elem_of_singleton in Hin. discriminate.
      * intros _. auto.
  - eexists [], _. split; [reflexivity|]. split.
    + apply not_elem_of_nil.
    + intros Hin. contradiction.
Qed.

Lemma construction_fails_without_redirect_witness :
  __init__ Fixture.rejecting Fixture.man "event" true 1024 None None None
  = ([Post "https://output.limacharlie.io/output/8cbe27f4-bfa1-4afb-ba19-138cd51389cd"
        (<["type" := "event"]> {["api_key" := "secret"]}) true true 121],
     Py.Raise Py.IndexError).
Proof.
  destruct (construction_fails_without_redirect Fixture.rejecting Fixture.man
              "event" true 1024 None None None)
    as (es & e & Hinit & _ & Hvalid).
  - intros r [= <-]. reflexivity.
  - destruct Hvalid as [-> [Hp | [-> _]]].
    + repeat constructor.
    + discriminate Hp.
    + exact Hinit.
Defined.

(** C9: a data type other than ['event'], ['detect'] and ['audit'] makes the
    constructor raise [LcApiException] before it does anything: no request is
    sent, no connection exists, nothing is spawned, whatever the server would
    have answered. *)
Theorem invalid_data_type_fails_first
    (post : string -> gmap string string -> Py.res Response)
    (man : Manager) (data_type : string) (is_parse : bool) (max_buffer : Z)
    (inv_id tag cat : option string) :
  data_type ∉ ["event"; "detect"; "audit"] ->
  __init__ post man data_type is_parse max_buffer inv_id tag cat
  = ([], Py.Raise (Py.LcApiException ("Invalid data type: " +:+ data_type))).
Proof.
  intros Hdt. unfold __init__. rewrite bool_decide_false by exact Hdt.
  reflexivity.
Qed.

Lemma invalid_data_type_fails_first_witness :
  __init__ Fixture.redirecting Fixture.man "events" true 1024 None None None
  = ([], Py.Raise (Py.LcApiException "Invalid data type: events")).
Proof.
  apply (invalid_data_type_fails_first Fixture.redirecting Fixture.man "events").
  intros Hin. repeat (apply elem_of_cons in Hin as [Hin|Hin]; [discriminate|]).
  apply elem_of_nil in Hin. exact Hin.
Defined.

(** ** Invariants of the queue over whole runs *)

Lemma new_within_capacity {A} (n : Z) : within_capacity (@Queue.new A n).
Proof.
  unfold within_capacity, Queue.new, Queue.qsize. cbn.
  destruct (n <=? 0) eqn:Hn; [exact I|]. apply Z.leb_gt in Hn. cbn. lia.
Qed.

Lemma put_nowait_within_capacity {A} (x : A) (q q' : Queue.t A) :
  within_capacity q -> Queue.put_nowait x q = Py.Ok q' -> within_capacity q'.
Proof.
  unfold within_capacity, Queue.put_nowait, Queue.full, Queue.qsize.
  destruct (Queue.maxsize q) as [m|] eqn:Hm.
  - destruct (m <=? _) eqn:Hle; [discriminate|]. apply Z.leb_gt in Hle.
    intros _ [= <-]. cbn. rewrite length_app. cbn. lia.
  - intros _ [= <-]. exact I.
Qed.

Section Invariants.
Context `{Py.Runtime}.

Lemma handle_line_within_capacity (self : Spout) (line : string) :
  within_capacity (queue self) ->
  within_capacity (queue (handle_line self line)).
Proof.
  intros Hq.
  destruct (handle_line_cases self line)
    as [-> | [-> | [(d & f & n & _ & _ & _ & _ & _ & ->) | (x & _ & Hf & ->)]]];
    try exact Hq.
  apply (put_nowait_within_capacity x (queue self)); [exact Hq|].
  apply put_nowait_room. exact Hf.
Qed.

(** One move keeps the configuration of the object and the bound of the
    queue, and it changes the messages in flight only by appending what the
    reader delivers: what the consumer took so far followed by what is still
    queued grows at its end, by at most one message. *)
Lemma step_queue (i : input) (w w' : world) :
  step i w = Some w' ->
  _max_buffer (sp w') = _max_buffer (sp w) /\
  _is_parse (sp w') = _is_parse (sp w) /\
  (within_capacity (queue (sp w)) -> within_capacity (queue (sp w'))) /\
  exists new : list message,
    consumed w' ++ Queue.items (queue (sp w')) =
      (consumed w ++ Queue.items (queue (sp w))) ++ new /\
    (length new <= 1)%nat.
Proof.
  intros Hs.
  assert (forall v : world,
            _max_buffer (sp v) = _max_buffer (sp w) ->
            _is_parse (sp v) = _is_parse (sp w) ->
            queue (sp v) = queue (sp w) ->
            consumed v = consumed w ->
            _max_buffer (sp v) = _max_buffer (sp w) /\
            _is_parse (sp v) = _is_parse (sp w) /\
            (within_capacity (queue (sp w)) -> within_capacity (queue (sp v))) /\
            exists new : list message,
              consumed v ++ Queue.items (queue (sp v)) =
                (consumed w ++ Queue.items (queue (sp w))) ++ new /\
              (length new <= 1)%nat) as Hsame.
  { intros v Hb Hp Hq Hc. rewrite Hq, Hc. repeat split; auto.
    exists []. rewrite app_nil_r. auto. }
  unfold step, _handleConnection, consumer in Hs.
  destruct i as [ | l | | msg | [r|e] | | | ], (reader w) eqn:Hr;
    cbv beta iota in Hs; try discriminate;
    unfold stream_over, loop_head, shutdown, Queue.get in Hs;
    cbn in Hs; repeat case_match; simplify_eq;
    try (apply Hsame; reflexivity).
  { (* a line *)
    destruct (handle_line_frame (sp w) l) as (_ & _ & _ & Hp & Hm & _).
    cbn. split; [exact Hm|]. split; [exact Hp|].
    split; [apply handle_line_within_capacity|].
    destruct (handle_line_cases (sp w) l)
      as [-> | [-> | [(d & f & n & _ & _ & _ & _ & _ & ->) | (x & _ & _ & ->)]]];
      cbn.
    1-3: exists []; rewrite app_nil_r; auto.
    exists [x]. rewrite app_assoc. auto. }
  (* the consumer takes a message, wherever the reader is *)
  all: cbn; split; [reflexivity|]; split; [reflexivity|]; split;
    [ unfold within_capacity, Queue.qsize; cbn;
      destruct (Queue.maxsize (queue (sp w))); [|auto];
      match goal with
      | Hi : Queue.items _ = _ |- _ => rewrite Hi
      end; cbn; lia
    | exists []; rewrite app_nil_r, <- app_assoc; cbn; auto ].
Qed.

Lemma run_queue (ins : list input) (w w' : world) :
  run ins w = Some w' ->
  _max_buffer (sp w') = _max_buffer (sp w) /\
  Queue.maxsize (queue (sp w')) = Queue.maxsize (queue (sp w)) /\
  (within_capacity (queue (sp w)) -> within_capacity (queue (sp w'))) /\
  exists new : list message,
    consumed w' ++ Queue.items (queue (sp w')) =
      (consumed w ++ Queue.items (queue (sp w))) ++ new.
Proof.
  revert w. induction ins as [|i ins IH]; intros w; cbn.
  - intros [= <-]. repeat split; auto. exists []. by rewrite app_nil_r.
  - destruct (step i w) as [w1|] eqn:Hs; [|discriminate]. intros Hrun.
    destruct (step_queue _ _ _ Hs) as (Hb & _ & Hcap & new1 & Hnew1 & _).
    destruct (step_frame _ _ _ Hs) as (_ & _ & _ & Hm).
    destruct (IH _ Hrun) as (Hb' & Hm' & Hcap' & new2 & Hnew2).
    split; [congruence|]. split; [congruence|]. split; [auto|].
    exists (new1 ++ new2). rewrite Hnew2, Hnew1, app_assoc. reflexivity.
Qed.

End Invariants.

(** X14: every state that a constructed object can reach has its queue
    within the bound given to the constructor; for a positive [max_buffer]
    that bound is [max_buffer] itself. *)
Lemma reachable_queue_is_bounded `{Py.Runtime}
    (post : string -> gmap string string -> Py.res Response)
    (man : Manager) (data_type : string) (is_parse : bool) (max_buffer : Z)
    (inv_id tag cat : option string) (es : list effect) (self : Spout)
    (ins : list input) (w : world) :
  __init__ post man data_type is_parse max_buffer inv_id tag cat
    = (es, Py.Ok self) ->
  run ins (boot es self) = Some w ->
  0 < max_buffer ->
  _max_buffer (sp w) = max_buffer /\
  Queue.maxsize (queue (sp w)) = Some max_buffer /\
  Queue.qsize (queue (sp w)) <= max_buffer.
Proof.
  intros Hinit Hrun Hpos.
  assert (queue self = Queue.new max_buffer /\ _max_buffer self = max_buffer)
    as [Hq Hb].
  { unfold __init__ in Hinit. repeat case_match; simplify_eq. auto. }
  destruct (run_queue _ _ _ Hrun) as (Hb' & Hm' & Hcap & _). cbn in *.
  assert (Queue.maxsize (queue (sp w)) = Some max_buffer) as Hm.
  { rewrite Hm', Hq. unfold Queue.new. cbn.
    destruct (max_buffer <=? 0) eqn:Hle; [|reflexivity].
    apply Z.leb_le in Hle. lia. }
  split; [congruence|]. split; [exact Hm|].
  specialize (Hcap ltac:(rewrite Hq; apply new_within_capacity)).
  unfold within_capacity in Hcap. rewrite Hm in Hcap. exact Hcap.
Qed.

(** ** The registration request *)

(** X1: the registration data has the secret under ['api_key'], the data
    type under ['type'], each filter that was given under its own key, and
    no other key: a filter that was not given is not sent at all. *)
Theorem registration_data_fields
    (apiKey data_type : string) (inv_id tag cat : option string) :
  let params := spoutParams apiKey data_type inv_id tag cat in
  params !! "api_key" = Some apiKey /\
  params !! "type" = Some data_type /\
  params !! "inv_id" = inv_id /\
  params !! "tag" = tag /\
  params !! "cat" = cat /\
  (forall key : string,
     key ∉ ["api_key"; "type"; "inv_id"; "tag"; "cat"] ->
     params !! key = None).
Proof.
  cbv zeta. unfold spoutParams.
  repeat split; try (destruct inv_id, tag, cat; simplify_map_eq; reflexivity).
  intros key Hkey.
  assert (key <> "api_key" /\ key <> "type" /\ key <> "inv_id" /\
          key <> "tag" /\ key <> "cat") as (? & ? & ? & ? & ?).
  { repeat split; intros ->; apply Hkey; repeat constructor. }
  destruct inv_id, tag, cat; simplify_map_eq; reflexivity.
Qed.

(** X2: with a supported data type and a registration answered through at
    least one redirect whose first hop names a [Location], the constructor
    sends exactly the registration [POST] (streamed, following redirects,
    timeout 121) and then spawns the reader.  The new object has counted no
    drop, is not stopping, has an empty queue built from [max_buffer], keeps
    the response of the [POST] as its connection and the first hop's
    [Location] as the address for reconnecting, whatever later hops say.
    When the reader first runs it reads that same response: no [GET] has been
    sent. *)
Theorem construction_succeeds_on_redirect `{Py.Runtime}
    (post : string -> gmap string string -> Py.res Response)
    (man : Manager) (data_type : string) (is_parse : bool) (max_buffer : Z)
    (inv_id tag cat : option string)
    (r : Response) (first : gmap string string)
    (rest : list (gmap string string)) (location : string) :
  let url := "https://output.limacharlie.io/output/" +:+ man_oid man in
  let params := spoutParams (man_secret_api_key man) data_type inv_id tag cat in
  data_type ∈ ["event"; "detect"; "audit"] ->
  post url params = Py.Ok r ->
  history r = first :: rest ->
  first !! "Location" = Some location ->
  exists self : Spout,
    __init__ post man data_type is_parse max_buffer inv_id tag cat
      = ([Post url params true true 121; Spawn], Py.Ok self) /\
    getDropped self = 0 /\
    _isStop self = false /\
    queue self = Queue.new max_buffer /\
    _hConn self = Some r /\
    _finalSpoutUrl self = location /\
    _is_parse self = is_parse /\
    exists w, step Sched (boot [Post url params true true 121; Spawn] self)
                = Some w /\
      reader w = Streaming /\
      sp w = self /\
      requests (log w) = [Post url params true true 121].
Proof.
  intros url params Hdt Hpost Hhist Hloc.
  unfold __init__. fold url params.
  rewrite bool_decide_true by exact Hdt. cbn.
  rewrite Hpost, Hhist, Hloc.
  eexists. split; [reflexivity|]. cbn.
  repeat (split; [reflexivity|]).
  eexists. split; [reflexivity|]. cbn. auto.
Qed.

Lemma construction_succeeds_on_redirect_witness :
  exists self : Spout,
    __init__ Sample.twice_redirecting Fixture.man "audit" false 16
      None (Some "vip") None
      = ([Post "https://output.limacharlie.io/output/8cbe27f4-bfa1-4afb-ba19-138cd51389cd"
            (spoutParams "secret" "audit" None (Some "vip") None)
            true true 121; Spawn], Py.Ok self) /\
    _finalSpoutUrl self = Fixture.stream_url /\
    _hConn self = Some {| conn := 7;
                          history := [ {["Location" := Fixture.stream_url]};
                                       {["Location" := "https://elsewhere.example/"]} ] |}.
Proof.
  destruct (@construction_succeeds_on_redirect Sample.runtime
              Sample.twice_redirecting Fixture.man "audit" false 16
              None (Some "vip") None
              {| conn := 7;
                 history := [ {["Location" := Fixture.stream_url]};
                              {["Location" := "https://elsewhere.example/"]} ] |}
              {["Location" := Fixture.stream_url]}
              [ {["Location" := "https://elsewhere.example/"]} ]
              Fixture.stream_url)
    as (self & Hinit & _ & _ & _ & Hconn & Hurl & _).
  - repeat constructor.
  - reflexivity.
  - reflexivity.
  - reflexivity.
  - exists self. auto.
Defined.

(** ** More about single lines *)

(** X3: a decoded object that has the key ['__trace'] with any value other
    than the string ['dropped'] (a keep-alive, for one) changes nothing: it
    is not queued, it is not counted, and this holds even when the queue is
    full. *)
Theorem other_trace_is_ignored `{Py.Runtime}
    (self : Spout) (line : string) (d : gmap string Py.json) (t : Py.json) :
  _is_parse self = true ->
  Py.json_loads line = Some (Py.JObj d) ->
  d !! "__trace" = Some t ->
  t <> Py.JStr "dropped" ->
  handle_line self line = self.
Proof.
  intros Hp Hl Ht Hne. unfold handle_line, line_body, Py.loads.
  rewrite Hp, Hl. cbn. rewrite Ht. rewrite bool_decide_true by eauto. cbn.
  assert (Py.str_eq "dropped" t = false) as ->; [|reflexivity].
  destruct t; try reflexivity. cbn. apply bool_decide_false. congruence.
Qed.

Lemma other_trace_is_ignored_witness :
  let self := set_queue (Queue.mk (Some 1) [Parsed (Fixture.event_obj 1)])
                (Fixture.spout true 1) in
  @handle_line Sample.runtime self Sample.keepalive_line = self.
Proof.
  intros self.
  apply (@other_trace_is_ignored Sample.runtime self Sample.keepalive_line
           {["__trace" := Py.JStr "keepalive"]} (Py.JStr "keepalive")).
  - reflexivity.
  - reflexivity.
  - reflexivity.
  - discriminate.
Defined.

(** X4: a line that decodes to a string containing the text [__trace], or
    to an array with the element ['__trace'], passes the membership test and
    then fails at the subscript: it is counted as one drop and never queued,
    although it is no trace message. *)
Theorem trace_text_outside_object_is_dropped `{Py.Runtime}
    (self : Spout) (line : string) (v : Py.json) :
  _is_parse self = true ->
  Py.json_loads line = Some v ->
  ((exists s, v = Py.JStr s /\ Py.substring_in "__trace" s = true) \/
   (exists l, v = Py.JArr l /\ Py.JStr "__trace" ∈ l)) ->
  line_body self line = Py.Raise Py.TypeError /\
  handle_line self line = bump 1 self.
Proof.
  intros Hp Hl Hv.
  assert (line_body self line = Py.Raise Py.TypeError) as Hb.
  { unfold line_body, Py.loads. rewrite Hp, Hl. cbn.
    destruct Hv as [(s & -> & Hs) | (l & -> & Hin)]; cbn.
    - rewrite Hs. reflexivity.
    - assert (existsb (Py.str_eq "__trace") l = true) as ->; [|reflexivity].
      apply existsb_exists. exists (Py.JStr "__trace").
      split; [apply list_elem_of_In; exact Hin|].
      cbn. apply bool_decide_true. reflexivity. }
  split; [exact Hb|]. exact (handle_line_raise _ _ _ Hb).
Qed.

Lemma trace_text_outside_object_is_dropped_witness :
  let self := Fixture.spout true 4 in
  @handle_line Sample.runtime self Sample.text_line = bump 1 self /\
  @handle_line Sample.runtime self Sample.array_line = bump 1 self.
Proof.
  intros self. split.
  - apply (@trace_text_outside_object_is_dropped Sample.runtime self
             Sample.text_line (Py.JStr "my__trace")); try reflexivity.
    left. exists "my__trace". split; reflexivity.
  - apply (@trace_text_outside_object_is_dropped Sample.runtime self
             Sample.array_line (Py.JArr [Py.JStr "__trace"])); try reflexivity.
    right. exists [Py.JStr "__trace"]. split; [reflexivity|]. constructor.
Defined.

(** X5: over any lines at all, the reader only ever appends to the queue:
    what was queued before is still there, in place, followed by at most one
    new message per line; and the configuration of the object (parsing,
    bound, address, connection, flag) is what it was. *)
Theorem reader_only_appends `{Py.Runtime} (self : Spout) (lines : list string) :
  let self' := for_lines self lines in
  (exists new : list message,
     Queue.items (queue self') = Queue.items (queue self) ++ new /\
     (length new <= length lines)%nat) /\
  Queue.maxsize (queue self') = Queue.maxsize (queue self) /\
  _is_parse self' = _is_parse self /\
  _max_buffer self' = _max_buffer self /\
  _finalSpoutUrl self' = _finalSpoutUrl self /\
  _hConn self' = _hConn self /\
  _isStop self' = _isStop self.
Proof.
  cbv zeta. revert self. induction lines as [|l ls IH]; intros self.
  - cbn. split; [|auto 10]. exists []. rewrite app_nil_r. auto.
  - rewrite for_lines_cons.
    destruct (IH (handle_line self l))
      as ((new & Hnew & Hlen) & Hm & Hp & Hb & Hu & Hc & Hs).
    destruct (handle_line_frame self l) as (Hs' & Hu' & Hc' & Hp' & Hb' & Hm').
    split; [|repeat split; congruence].
    destruct (handle_line_cases self l)
      as [Hh | [Hh | [(d & f & n & _ & _ & _ & _ & _ & Hh) | (x & _ & _ & Hh)]]];
      rewrite Hh in Hnew |- *; cbn in Hnew.
    1-3: exists new; split; [exact Hnew | cbn; lia].
    exists (x :: new). split.
    + rewrite Hnew, <- app_assoc. reflexivity.
    + cbn. lia.
Qed.

(** The body never reads the counter: it only adds to it. *)
Lemma handle_line_set_dropped `{Py.Runtime}
    (self : Spout) (line : string) (k : Z) :
  handle_line (set_dropped k self) line =
    set_dropped (k + (_dropped (handle_line self line) - _dropped self))
      (handle_line self line).
Proof.
  unfold handle_line, line_body, Py.loads, Queue.put_nowait. cbn.
  destruct (_is_parse self).
  - destruct (Py.json_loads line) as [v|]; cbn;
      [|unfold set_dropped; cbn; f_equal; lia].
    destruct (Py.contains "__trace" v) as [[|]|e]; cbn;
      [| |unfold set_dropped; cbn; f_equal; lia].
    + destruct (Py.getitem v "__trace") as [t|e]; cbn;
        [|unfold set_dropped; cbn; f_equal; lia].
      destruct (Py.str_eq "dropped" t); cbn;
        [|unfold set_dropped; cbn; f_equal; lia].
      destruct (Py.getitem v "n") as [f|e]; cbn;
        [|unfold set_dropped; cbn; f_equal; lia].
      destruct (Py.int f) as [n|e]; cbn; unfold set_dropped; cbn; f_equal; lia.
    + destruct (Queue.full (queue self)); cbn;
        unfold set_dropped, set_queue; cbn; f_equal; lia.
  - destruct (Queue.full (queue self)); cbn;
      unfold set_dropped, set_queue; cbn; f_equal; lia.
Qed.

(** X6: resetting the counter and reading commute.  Reading a batch of lines
    after [resetDroppedCounter] leaves the same queue as reading it without
    the reset, and the counter then shows exactly what the batch added: the
    count without the reset minus the count before the batch. *)
Theorem reset_then_read `{Py.Runtime} (self : Spout) (lines : list string) :
  queue (for_lines (resetDroppedCounter self) lines) =
    queue (for_lines self lines) /\
  getDropped (for_lines (resetDroppedCounter self) lines) =
    getDropped (for_lines self lines) - getDropped self.
Proof.
  assert (forall ls s k,
            for_lines (set_dropped k s) ls =
              set_dropped (k + (_dropped (for_lines s ls) - _dropped s))
                (for_lines s ls)) as Hgen.
  { induction ls as [|l ls IH]; intros s k.
    - cbn. f_equal. lia.
    - rewrite !for_lines_cons, handle_line_set_dropped, IH.
      unfold set_dropped. cbn. f_equal. lia. }
  unfold resetDroppedCounter, getDropped. rewrite Hgen. cbn.
  split; [reflexivity|lia].
Qed.

(** ** Overflow *)

Section Overflow.
Context `{Py.Runtime}.

(** Whether a line reaches [put_nowait] depends on the parsing switch only. *)
Lemma deliverable_parse_only (s1 s2 : Spout) (l : string) :
  _is_parse s1 = _is_parse s2 -> deliverable s1 l = deliverable s2 l.
Proof. unfold deliverable. intros ->. reflexivity. Qed.

(** Lines that all reach [put_nowait], read without the consumer taking
    anything in between: the first ones fill the room that is left, each of
    the others is counted as one drop. *)
Lemma for_lines_fill (self0 : Spout) (lines : list string) (xs : list message) :
  Forall2 (fun l x => deliverable self0 l = Some x) lines xs ->
  forall self : Spout,
    _is_parse self = _is_parse self0 ->
    within_capacity (queue self) ->
    for_lines self lines =
      set_dropped
        (_dropped self + Z.of_nat (length xs - room (queue self) (length xs)))
        (set_queue
           (Queue.mk (Queue.maxsize (queue self))
              (Queue.items (queue self) ++ take (room (queue self) (length xs)) xs))
           self).
Proof.
  induction 1 as [|l x ls xs Hlx _ IH]; intros self Hp Hcap.
  - cbn. rewrite take_nil, app_nil_r, Z.add_0_r.
    destruct self as [? ? ? ? ? ? ? ? ? ? ? [? ?] ? ?]. reflexivity.
  - rewrite for_lines_cons.
    assert (deliverable self l = Some x) as Hd
      by (rewrite (deliverable_parse_only self self0 l Hp); exact Hlx).
    destruct (Queue.full (queue self)) eqn:Hf.
    + (* no room: the new line is the one that is lost *)
      assert (handle_line self l = bump 1 self) as ->.
      { apply (handle_line_raise self l Py.Full).
        rewrite (line_body_deliverable _ _ _ Hd), (put_nowait_full _ _ Hf).
        reflexivity. }
      rewrite IH by (cbn; assumption).
      unfold Queue.full in Hf. unfold within_capacity in Hcap.
      unfold room, bump, set_dropped, set_queue. cbn.
      destruct (Queue.maxsize (queue self)) as [m|]; [|discriminate].
      apply Z.leb_le in Hf. unfold Queue.qsize in *.
      replace (Z.to_nat m - length (Queue.items (queue self)))%nat with 0%nat
        by lia.
      cbn. rewrite take_0. f_equal. lia.
    + (* room: the line is appended *)
      rewrite (handle_line_delivers _ _ _ Hd Hf).
      rewrite IH; cbn; [|exact Hp|].
      * unfold Queue.full in Hf.
        unfold room, set_dropped, set_queue. cbn.
        destruct (Queue.maxsize (queue self)) as [m|].
        -- apply Z.leb_gt in Hf. unfold Queue.qsize in Hf.
           rewrite length_app. cbn.
           replace (Z.to_nat m - length (Queue.items (queue self)))%nat
             with (S (Z.to_nat m - (length (Queue.items (queue self)) + 1)))
             by lia.
           cbn. rewrite <- app_assoc. cbn. f_equal.
        -- cbn. rewrite <- app_assoc. cbn. f_equal.
      * unfold within_capacity, Queue.full, Queue.qsize in *. cbn.
        destruct (Queue.maxsize (queue self)) as [m|]; [|exact I].
        apply Z.leb_gt in Hf. rewrite length_app. cbn. lia.
Qed.

End Overflow.

(** X7: the queue drops the newest.  [N] lines that each decode to a value
    on which the ['__trace'] test is false, read into an empty queue of
    capacity [C > 0] while the consumer takes nothing, leave the first [C]
    decoded values on the queue in the order of the lines; each line beyond
    the first [C] is counted as one drop, and no queued message is displaced
    to make room. *)
Theorem overflow_drops_newest `{Py.Runtime}
    (self : Spout) (C : Z) (lines : list string) (vs : list Py.json) :
  _is_parse self = true ->
  queue self = Queue.new C ->
  0 < C ->
  Forall2 plain lines vs ->
  let self' := for_lines self lines in
  Queue.items (queue self') = Parsed <$> take (Z.to_nat C) vs /\
  getDropped self' =
    getDropped self + Z.of_nat (length lines - Z.to_nat C).
Proof.
  intros Hp Hq HC Hlv self'.
  assert (Forall2 (fun l x => deliverable self l = Some x) lines (Parsed <$> vs))
    as Hd.
  { apply Forall2_fmap_r. eapply Forall2_impl; [exact Hlv|].
    intros l v Hplain. apply plain_deliverable; assumption. }
  subst self'.
  rewrite (for_lines_fill self lines _ Hd self eq_refl)
    by (rewrite Hq; apply new_within_capacity).
  rewrite Hq. unfold room, Queue.new, getDropped. cbn.
  destruct (C <=? 0) eqn:HC0; [apply Z.leb_le in HC0; lia|]. cbn.
  rewrite Nat.sub_0_r, length_fmap, fmap_take, (Forall2_length _ _ _ Hlv).
  auto.
Qed.

Lemma overflow_drops_newest_witness :
  let lines := [Fixture.event_line "1"; Fixture.event_line "2";
                Fixture.event_line "3"] in
  let self' := @for_lines Sample.runtime (Fixture.spout true 2) lines in
  Queue.items (queue self') =
    [Parsed (Fixture.event_obj 1); Parsed (Fixture.event_obj 2)] /\
  getDropped self' = 1.
Proof.
  intros lines.
  apply (@overflow_drops_newest Sample.runtime (Fixture.spout true 2) 2 lines
           [Fixture.event_obj 1; Fixture.event_obj 2; Fixture.event_obj 3]).
  - reflexivity.
  - reflexivity.
  - lia.
  - repeat constructor.
Defined.

(** X8: with parsing off nothing is decoded and nothing is filtered.  Every
    line, a trace message included, is queued as the raw line while there is
    room and counted as one drop otherwise, so the queue length and the
    counter together grow by exactly the number of lines; the outcome does
    not depend on what [json.loads] or [int] would have said. *)
Theorem raw_lines_bypass_decoding (R1 R2 : Py.Runtime)
    (self : Spout) (lines : list string) :
  _is_parse self = false ->
  within_capacity (queue self) ->
  let n := room (queue self) (length lines) in
  let self' := @for_lines R1 self lines in
  Queue.items (queue self') = Queue.items (queue self) ++ (Raw <$> take n lines) /\
  getDropped self' = getDropped self + Z.of_nat (length lines - n) /\
  Queue.qsize (queue self') + getDropped self' =
    Queue.qsize (queue self) + getDropped self + Z.of_nat (length lines) /\
  @for_lines R2 self lines = self'.
Proof.
  intros Hp Hcap n self'.
  assert (forall R : Py.Runtime,
            @for_lines R self lines =
              set_dropped (_dropped self + Z.of_nat (length lines - n))
                (set_queue
                   (Queue.mk (Queue.maxsize (queue self))
                      (Queue.items (queue self) ++ (Raw <$> take n lines)))
                   self)) as Hall.
  { intros R.
    assert (Forall2 (fun l x => @deliverable R self l = Some x)
              lines (Raw <$> lines)) as Hd.
    { apply Forall2_fmap_r, Forall_Forall2_diag, Forall_forall.
      intros l _. unfold deliverable. rewrite Hp. reflexivity. }
    rewrite (@for_lines_fill R self lines _ Hd self eq_refl Hcap).
    rewrite length_fmap, fmap_take. reflexivity. }
  subst self'. rewrite (Hall R1), (Hall R2). unfold getDropped. cbn.
  split; [reflexivity|]. split; [reflexivity|]. split; [|reflexivity].
  unfold Queue.qsize. cbn. rewrite length_app, length_fmap, length_take.
  subst n. unfold room, within_capacity, Queue.qsize in *.
  destruct (Queue.maxsize (queue self)) as [m|]; lia.
Qed.

Lemma raw_lines_bypass_decoding_witness :
  let lines := [Fixture.dropped_line "5"; "not json"; Fixture.event_line "1"] in
  let self' := @for_lines Sample.runtime (Fixture.spout false 2) lines in
  Queue.items (queue self') = [Raw (Fixture.dropped_line "5"); Raw "not json"] /\
  getDropped self' = 1 /\
  @for_lines Sample.deaf (Fixture.spout false 2) lines = self'.
Proof.
  intros lines.
  destruct (raw_lines_bypass_decoding Sample.runtime Sample.deaf
              (Fixture.spout false 2) lines)
    as (Hitems & Hdropped & _ & Hsame).
  - reflexivity.
  - exact (new_within_capacity 2).
  - split; [exact Hitems|]. split; [exact Hdropped|exact Hsame].
Defined.

(** ** More about the life of the reader *)

Lemma closes_app (l1 l2 : list effect) :
  closes (l1 ++ l2) = closes l1 ++ closes l2.
Proof. apply filter_app. Qed.

Section Traffic.
Context `{Py.Runtime}.

(** One move sends nothing, or the one [GET] of the stored address; and it
    calls [close] only from [shutdown], on the connection that is stored. *)
Lemma step_traffic (i : input) (w w' : world) :
  step i w = Some w' ->
  (requests (log w') = requests (log w) \/
   requests (log w') =
     requests (log w) ++ [Get (_finalSpoutUrl (sp w)) true false _TIMEOUT_SEC]) /\
  closes (log w') =
    closes (log w) ++
    match i, _hConn (sp w) with
    | CallShutdown, Some r => [Close (conn r)]
    | _, _ => []
    end.
Proof.
  intros Hs. unfold step, _handleConnection, consumer in Hs.
  destruct i as [ | l | | msg | [r|e] | | | ], (reader w) eqn:Hr;
    cbv beta iota in Hs; try discriminate;
    unfold stream_over, loop_head, shutdown, Queue.get in Hs;
    cbn in Hs; repeat case_match; simplify_eq; cbn;
    rewrite ?requests_app, ?closes_app, ?app_nil_r; cbn;
    rewrite ?app_nil_r; auto.
  all: try (destruct err; cbn; rewrite ?app_nil_r; auto).
Qed.

(** A reader that is out of the loop sends nothing any more. *)
Lemma run_exited_silent (ins : list input) (w w' : world) (e : option Py.exn) :
  reader w = Exited e ->
  run ins w = Some w' ->
  requests (log w') = requests (log w).
Proof.
  revert w. induction ins as [|i ins IH]; intros w Hr; cbn.
  - intros [= <-]. reflexivity.
  - destruct (step i w) as [w1|] eqn:Hs; [|discriminate]. intros Hrun.
    assert (reader w1 = Exited e) as Hr1
      by (apply (run_exited [i] w w1 e Hr); cbn; rewrite Hs; reflexivity).
    rewrite (IH _ Hr1 Hrun).
    unfold step, _handleConnection, consumer in Hs. rewrite Hr in Hs.
    destruct i as [ | l | | msg | [r|x] | | | ]; try discriminate;
      unfold shutdown, Queue.get in Hs; repeat case_match; simplify_eq; cbn;
      rewrite ?requests_app, ?app_nil_r; reflexivity.
Qed.

End Traffic.

(** X9: over any run, from any state, everything the object sends is a
    [GET] of the one stored address, streamed, with redirects off and the
    timeout 121: the requests in the log grow by copies of that one request
    and by nothing else.  For an object fresh from the constructor the whole
    traffic is therefore the registration [POST] followed by such [GET]s. *)
Theorem traffic_is_gets_of_stored_url `{Py.Runtime}
    (ins : list input) (w w' : world) :
  run ins w = Some w' ->
  exists k : nat,
    requests (log w') =
      requests (log w) ++
      replicate k (Get (_finalSpoutUrl (sp w)) true false 121) /\
    (k <= length ins)%nat.
Proof.
  revert w. induction ins as [|i ins IH]; intros w; cbn.
  - intros [= <-]. exists 0%nat. cbn. rewrite app_nil_r. auto.
  - destruct (step i w) as [w1|] eqn:Hs; [|discriminate]. intros Hrun.
    destruct (IH _ Hrun) as (k & Hk & Hle).
    destruct (step_frame _ _ _ Hs) as (Hu & _).
    destruct (step_traffic _ _ _ Hs) as [[H0 | H1] _].
    + exists k. rewrite Hk, H0, Hu. split; [reflexivity|lia].
    + exists (S k). rewrite Hk, H1, Hu, <- app_assoc. split; [reflexivity|lia].
Qed.

Lemma traffic_is_gets_of_stored_url_witness :
  exists w',
    @run Sample.runtime
      [Sched; Line (Fixture.event_line "1"); StreamEnd;
       GetReturns (Py.Ok {| conn := 1; history := [] |});
       StreamError "reset"; CallGet]
      (boot [Post "u" ∅ true true 121; Spawn] (Fixture.spout true 4)) = Some w' /\
    requests (log w') =
      [Post "u" ∅ true true 121;
       Get Fixture.stream_url true false 121;
       Get Fixture.stream_url true false 121].
Proof.
  eexists. split; [reflexivity|].
  match goal with
  | |- requests (log ?b) = _ =>
      destruct (@traffic_is_gets_of_stored_url Sample.runtime
                  [Sched; Line (Fixture.event_line "1"); StreamEnd;
                   GetReturns (Py.Ok {| conn := 1; history := [] |});
                   StreamError "reset"; CallGet]
                  (boot [Post "u" ∅ true true 121; Spawn] (Fixture.spout true 4))
                  b eq_refl) as (k & Hk & _)
  end.
  rewrite Hk. destruct k as [|[|[|k]]]; try discriminate Hk. reflexivity.
Defined.

(** X10: a reconnection that fails is not retried.  [requests.get] is
    called outside both [try] blocks, so when it raises the exception leaves
    [_handleConnection]: the reader is gone for good, it sends nothing more
    whatever happens next, and the object is left as it was, with the
    stopping flag still unset if it was unset. *)
Theorem failed_reconnect_ends_reader `{Py.Runtime}
    (w : world) (e : Py.exn) :
  reader w = Connecting ->
  exists w', step (GetReturns (Py.Raise e)) w = Some w' /\
    reader w' = Exited (Some e) /\
    sp w' = sp w /\
    log w' = log w /\
    (forall (more : list input) (w'' : world),
       run more w' = Some w'' ->
       reader w'' = Exited (Some e) /\
       requests (log w'') = requests (log w)).
Proof.
  intros Hr. exists (with_reader (Exited (Some e)) w).
  split; [unfold step, _handleConnection; rewrite Hr; reflexivity|].
  repeat (split; [reflexivity|]).
  intros more w'' Hrun. split.
  - exact (run_exited more (with_reader (Exited (Some e)) w) w'' (Some e)
             eq_refl Hrun).
  - exact (run_exited_silent more (with_reader (Exited (Some e)) w) w''
             (Some e) eq_refl Hrun).
Qed.

Lemma failed_reconnect_ends_reader_witness :
  let w := Fixture.streaming (Fixture.spout true 4) in
  exists w',
    @run Sample.runtime
      [StreamEnd; GetReturns (Py.Raise Py.RequestException)] w = Some w' /\
    reader w' = Exited (Some Py.RequestException) /\
    _isStop (sp w') = false.
Proof.
  intros w.
  destruct (@failed_reconnect_ends_reader Sample.runtime
              (stream_over None w) Py.RequestException eq_refl)
    as (w' & Hs & Hr & Hsp & _).
  exists w'. split; [cbn; exact Hs|]. split; [exact Hr|].
  rewrite Hsp. reflexivity.
Defined.

(** X11: [close] is called by [shutdown] only, and on the connection that is
    stored at that moment.  When [shutdown] comes while a reconnection is in
    flight it therefore closes the old connection; the new one, once
    [requests.get] returns it, is stored, the reader leaves the loop without
    reading from it, and nothing closes it. *)
Theorem shutdown_during_reconnect `{Py.Runtime}
    (w : world) (old new : Response) :
  reader w = Connecting ->
  _hConn (sp w) = Some old ->
  (exists w',
     run [CallShutdown; GetReturns (Py.Ok new)] w = Some w' /\
     reader w' = Exited None /\
     _hConn (sp w') = Some new /\
     log w' = log w ++ [Close (conn old)]) /\
  (forall (i : input) (v v' : world),
     step i v = Some v' ->
     closes (log v') =
       closes (log v) ++
       match i, _hConn (sp v) with
       | CallShutdown, Some r => [Close (conn r)]
       | _, _ => []
       end).
Proof.
  intros Hr Hc. split.
  - eexists. split.
    + cbn. unfold consumer, shutdown. cbn. rewrite Hc. cbn.
      unfold _handleConnection. cbn. rewrite Hr. reflexivity.
    + cbn. auto.
  - intros i v v' Hs. destruct (step_traffic _ _ _ Hs) as [_ Hcl]. exact Hcl.
Qed.

Lemma shutdown_during_reconnect_witness :
  let w := stream_over None
             (Fixture.streaming (Fixture.spout true 4)) in
  exists w',
    @run Sample.runtime
      [CallShutdown; GetReturns (Py.Ok {| conn := 1; history := [] |})] w
      = Some w' /\
    reader w' = Exited None /\
    _hConn (sp w') = Some {| conn := 1; history := [] |} /\
    closes (log w') = [Close 0].
Proof.
  intros w.
  destruct (@shutdown_during_reconnect Sample.runtime w
              {| conn := 0; history := [ {["Location" := Fixture.stream_url]} ] |}
              {| conn := 1; history := [] |} eq_refl eq_refl)
    as [(w' & Hrun & Hr & Hc & Hlog) _].
  exists w'. split; [exact Hrun|]. split; [exact Hr|]. split; [exact Hc|].
  rewrite Hlog. reflexivity.
Defined.

(** ** The consumer's side *)

Section Consumer.
Context `{Py.Runtime}.


Lemma step_consumed (i : input) (w w' : world) :
  step i w = Some w' -> exists c, consumed w' = consumed w ++ c.
Proof.
  intros Hs. unfold step, _handleConnection, consumer in Hs.
  destruct i as [ | l | | msg | [r|e] | | | ], (reader w) eqn:Hr;
    cbv beta iota in Hs; try discriminate;
    unfold stream_over, loop_head, shutdown, Queue.get in Hs;
    cbn in Hs; repeat case_match; simplify_eq; cbn;
    first [ by (exists []; rewrite app_nil_r) | by eexists [_] ].
Qed.

End Consumer.



(** X13: under any interleaving of the reader, the consumer and [shutdown],
    messages leave the queue in the order they entered it: what the consumer
    has taken, followed by what is queued, only ever grows at its end, and
    what the consumer has taken only ever grows at its end too. *)
Theorem consumer_sees_reader_order `{Py.Runtime}
    (ins : list input) (w w' : world) :
  run ins w = Some w' ->
  (exists later : list message,
     consumed w' ++ Queue.items (queue (sp w')) =
       (consumed w ++ Queue.items (queue (sp w))) ++ later /\
     (length later <= length ins)%nat) /\
  (exists taken : list message, consumed w' = consumed w ++ taken).
Proof.
  revert w. induction ins as [|i ins IH]; intros w; cbn.
  - intros [= <-]. split; exists []; rewrite app_nil_r; auto.
  - destruct (step i w) as [w1|] eqn:Hs; [|discriminate]. intros Hrun.
    destruct (IH _ Hrun) as ((later & Hl & Hlen) & (taken & Ht)).
    destruct (step_queue _ _ _ Hs) as (_ & _ & _ & new & Hnew & Hn).
    destruct (step_consumed _ _ _ Hs) as (c & Hc).
    split.
    + exists (new ++ later). rewrite Hl, Hnew, app_assoc.
      split; [reflexivity|]. rewrite length_app. lia.
    + exists (c ++ taken). rewrite Ht, Hc, app_assoc. reflexivity.
Qed.

Lemma consumer_sees_reader_order_witness :
  exists w',
    @run Sample.runtime
      [Line (Fixture.event_line "1"); Line (Fixture.event_line "2"); CallGet;
       Line (Fixture.event_line "3"); CallShutdown; CallGet]
      (Fixture.streaming (Fixture.spout true 2)) = Some w' /\
    consumed w' = [Parsed (Fixture.event_obj 1); Parsed (Fixture.event_obj 2)] /\
    Queue.items (queue (sp w')) = [Parsed (Fixture.event_obj 3)].
Proof.
  eexists. split; [reflexivity|].
  match goal with
  | |- consumed ?b = _ /\ _ =>
      destruct (@consumer_sees_reader_order Sample.runtime
                  [Line (Fixture.event_line "1"); Line (Fixture.event_line "2");
                   CallGet; Line (Fixture.event_line "3"); CallShutdown; CallGet]
                  (Fixture.streaming (Fixture.spout true 2)) b eq_refl)
        as [_ (taken & Ht)]
  end.
  split; reflexivity.
Defined.

Lemma reachable_queue_is_bounded_witness :
  exists w,
    @run Sample.runtime
      [Sched; Line (Fixture.event_line "1"); Line (Fixture.event_line "2");
       Line (Fixture.event_line "3")]
      (boot [Post "https://output.limacharlie.io/output/8cbe27f4-bfa1-4afb-ba19-138cd51389cd"
               (spoutParams "secret" "event" None None None) true true 121;
             Spawn]
         (Fixture.spout true 2)) = Some w /\
    Queue.maxsize (queue (sp w)) = Some 2 /\
    Queue.qsize (queue (sp w)) <= 2 /\
    getDropped (sp w) = 1.
Proof.
  eexists. split; [reflexivity|].
  match goal with
  | |- Queue.maxsize (queue (sp ?b)) = _ /\ _ =>
      destruct (@reachable_queue_is_bounded Sample.runtime
                  Fixture.redirecting Fixture.man "event" true 2 None None None
                  _ (Fixture.spout true 2)
                  [Sched; Line (Fixture.event_line "1");
                   Line (Fixture.event_line "2"); Line (Fixture.event_line "3")]
                  b eq_refl eq_refl)
        as (_ & Hm & Hle)
  end.
  - lia.
  - split; [exact Hm|]. split; [exact Hle|reflexivity].
Defined.

(** ** The signal handler *)

(** X15: [_signal_handler] always writes its one line to standard error
    and ends the process with status 0, also when the signal comes before
    any object exists.  When an object exists it is shut down first: the flag
    is set and the stored connection is closed; the handler sends no request
    and touches neither the queue nor the drop counter. *)
Theorem signal_handler_exits_zero (g : option world) :
  fst (_signal_handler g) =
    [Stderr ("You pressed Ctrl+C!" +:+ newline); Exit 0] /\
  match g with
  | None => snd (_signal_handler g) = None
  | Some w =>
      exists w', snd (_signal_handler g) = Some w' /\
        _isStop (sp w') = true /\
        closes (log w') =
          closes (log w) ++
          match _hConn (sp w) with Some r => [Close (conn r)] | None => [] end /\
        requests (log w') = requests (log w) /\
        queue (sp w') = queue (sp w) /\
        getDropped (sp w') = getDropped (sp w)
  end.
Proof.
  split; [reflexivity|].
  destruct g as [w|]; [|reflexivity].
  unfold _signal_handler, shutdown. cbn.
  destruct (_hConn (sp w)) as [r|]; eexists; (split; [reflexivity|]); cbn;
    rewrite closes_app, requests_app, ?app_nil_r; cbn; rewrite ?app_nil_r;
    auto 10.
Qed.

(** ** What reaches the consumer, and who writes what *)

Section Filter.
Context `{Py.Runtime}.

Lemma deliverable_untraced (self : Spout) (l : string) (x : message) :
  deliverable self l = Some x -> untraced x.
Proof.
  unfold deliverable. destruct (_is_parse self).
  - destruct (Py.loads l) as [v|e]; [|discriminate].
    destruct (Py.contains "__trace" v) as [[|]|e] eqn:Hc; try discriminate.
    intros [= <-]. exact Hc.
  - intros [= <-]. exact I.
Qed.

Lemma step_untraced (i : input) (w w' : world) :
  step i w = Some w' ->
  Forall untraced (consumed w ++ Queue.items (queue (sp w))) ->
  Forall untraced (consumed w' ++ Queue.items (queue (sp w'))).
Proof.
  intros Hs Hall. unfold step, _handleConnection, consumer in Hs.
  destruct i as [ | l | | msg | [r|e] | | | ], (reader w) eqn:Hr;
    cbv beta iota in Hs; try discriminate;
    unfold stream_over, loop_head, shutdown, Queue.get in Hs;
    cbn in Hs; repeat case_match; simplify_eq; cbn; try exact Hall.
  { destruct (handle_line_cases (sp w) l)
      as [-> | [-> | [(d & f & n & _ & _ & _ & _ & _ & ->) | (x & Hd & _ & ->)]]];
      cbn; try exact Hall.
    rewrite app_assoc. apply Forall_app. split; [exact Hall|].
    constructor; [|constructor]. exact (deliverable_untraced _ _ _ Hd). }
  all: rewrite <- app_assoc; cbn; exact Hall.
Qed.

End Filter.

(** X16: the filter holds on everything the consumer can ever get.  In a
    run that starts with nothing queued and nothing taken, every decoded
    message that is queued or was taken is one on which the test
    ['__trace' in message] came out false: no object with that key, trace
    message or not, reaches the consumer. *)
Theorem no_trace_reaches_consumer `{Py.Runtime}
    (ins : list input) (w w' : world) (v : Py.json) :
  Queue.items (queue (sp w)) = [] ->
  consumed w = [] ->
  run ins w = Some w' ->
  Parsed v ∈ consumed w' ++ Queue.items (queue (sp w')) ->
  Py.contains "__trace" v = Py.Ok false /\
  (forall d, v = Py.JObj d -> d !! "__trace" = None).
Proof.
  intros Hq Hc Hrun Hin.
  assert (forall ins w w',
            run ins w = Some w' ->
            Forall untraced (consumed w ++ Queue.items (queue (sp w))) ->
            Forall untraced (consumed w' ++ Queue.items (queue (sp w'))))
    as Hinv.
  { clear. induction ins as [|i ins IH]; intros w w'; cbn.
    - intros [= <-]. auto.
    - destruct (step i w) as [w1|] eqn:Hs; [|discriminate].
      intros Hrun Hall. exact (IH _ _ Hrun (step_untraced _ _ _ Hs Hall)). }
  assert (Forall untraced (consumed w' ++ Queue.items (queue (sp w')))) as Hall.
  { apply (Hinv ins w w' Hrun). rewrite Hq, Hc. constructor. }
  rewrite Forall_forall in Hall. specialize (Hall _ Hin). cbn in Hall.
  split; [exact Hall|].
  intros d ->. cbn in Hall. injection Hall as Hb.
  apply bool_decide_eq_false in Hb.
  destruct (d !! "__trace") eqn:Hd; [|reflexivity].
  exfalso. apply Hb. eauto.
Qed.

Lemma no_trace_reaches_consumer_witness :
  exists w',
    @run Sample.runtime
      [Line Sample.keepalive_line; Line (Fixture.event_line "1");
       Line (Fixture.dropped_line "5"); CallGet; Line (Fixture.event_line "2")]
      (Fixture.streaming (Fixture.spout true 4)) = Some w' /\
    consumed w' ++ Queue.items (queue (sp w')) =
      [Parsed (Fixture.event_obj 1); Parsed (Fixture.event_obj 2)] /\
    Py.contains "__trace" (Fixture.event_obj 2) = Py.Ok false.
Proof.
  eexists. split; [reflexivity|]. split; [reflexivity|].
  match goal with
  | |- _ =>
      destruct (@no_trace_reaches_consumer Sample.runtime
                  [Line Sample.keepalive_line; Line (Fixture.event_line "1");
                   Line (Fixture.dropped_line "5"); CallGet;
                   Line (Fixture.event_line "2")]
                  (Fixture.streaming (Fixture.spout true 4)) _
                  (Fixture.event_obj 2) eq_refl eq_refl eq_refl)
        as [Hc _]
  end.
  - cbn. apply list_elem_of_In. right. left. reflexivity.
  - exact Hc.
Defined.

(** X17: who writes what.  In one move the stopping flag changes only by
    [shutdown], the stored connection only when a reconnecting [GET] returns
    a response (which is then the stored one), the messages taken only by
    the consumer's [get], and the drop counter only by a line or by
    [resetDroppedCounter]; the parsing switch, the bound, the data type and
    the stored address never change. *)
Theorem fields_have_one_writer `{Py.Runtime} (i : input) (w w' : world) :
  step i w = Some w' ->
  (_isStop (sp w') = _isStop (sp w) \/
   i = CallShutdown /\ _isStop (sp w') = true) /\
  (_hConn (sp w') = _hConn (sp w) \/
   exists r, i = GetReturns (Py.Ok r) /\ _hConn (sp w') = Some r) /\
  (consumed w' = consumed w \/ i = CallGet) /\
  (_dropped (sp w') = _dropped (sp w) \/ i = CallReset \/ exists l, i = Line l) /\
  _is_parse (sp w') = _is_parse (sp w) /\
  _max_buffer (sp w') = _max_buffer (sp w) /\
  _data_type (sp w') = _data_type (sp w) /\
  _finalSpoutUrl (sp w') = _finalSpoutUrl (sp w).
Proof.
  intros Hs. unfold step, _handleConnection, consumer in Hs.
  destruct i as [ | l | | msg | [r|e] | | | ], (reader w) eqn:Hr;
    cbv beta iota in Hs; try discriminate;
    unfold stream_over, loop_head, shutdown, Queue.get in Hs;
    cbn in Hs; repeat case_match; simplify_eq; cbn;
    try (repeat split; eauto; fail).
  destruct (handle_line_cases (sp w) l)
    as [-> | [-> | [(d & f & n & _ & _ & _ & _ & _ & ->) | (x & _ & _ & ->)]]];
    cbn; repeat split; eauto.
Qed.

Lemma fields_have_one_writer_witness :
  let w := stream_over None (Fixture.streaming (Fixture.spout true 4)) in
  exists w',
    @step Sample.runtime (GetReturns (Py.Ok {| conn := 1; history := [] |})) w
      = Some w' /\
    _hConn (sp w') = Some {| conn := 1; history := [] |} /\
    _isStop (sp w') = _isStop (sp w) /\
    _finalSpoutUrl (sp w') = Fixture.stream_url.
Proof.
  intros w. eexists. split; [reflexivity|]. split; [reflexivity|].
  match goal with
  | |- _isStop (sp ?b) = _ /\ _ =>
      destruct (@fields_have_one_writer Sample.runtime
                  (GetReturns (Py.Ok {| conn := 1; history := [] |})) w b eq_refl)
        as ([Hstop | [Hi _]] & _ & _ & _ & _ & _ & _ & Hurl)
  end.
  - split; [exact Hstop|exact Hurl].
  - discriminate Hi.
Defined.
